(** * History subsystem of python-opcua: [opcua/server/history.py]

    A shallow embedding of the history manager, of its in-memory storage
    backend [HistoryDict] and of the continuation-point codec, followed by
    the properties established about them.

    Conventions.
    - A [datetime] is a count of microseconds since the epoch, a
      [timedelta] a count of microseconds; both are unbounded integers.
    - The local time zone has a fixed offset from UTC: there are no
      daylight-saving transitions. Only then are
      [time.mktime(dt.timetuple())] and [datetime.fromtimestamp] the
      whole-second quotient and its inverse; where local time jumps, the
      two calls are an hour off for the skipped and the repeated local
      times, and nothing below speaks of such a zone.
    - A Python float that the code builds from an integer and a number of
      microseconds is kept as the exact rational; below 2^32 seconds the
      spacing of doubles (at most 2^-21) is finer than a microsecond, hence
      truncating the double and truncating the rational agree.
    - A data value may lack either timestamp ([None], the default of
      [ua.DataValue]).
    - A call either returns or raises; a stateful call also yields the state
      it leaves behind, whether it returned or raised. *)

From stdpp Require Import gmap list strings sorting.
From Stdlib Require Import ZArith QArith Lia.
From Stdlib Require Strings.Byte.

Local Open Scope Z_scope.

(** ** Outcomes and the state-and-exception monad *)

Inductive exn : Type :=
| KeyError
| IndexError
| ValueError
| TypeError
| AttributeError
| StructError
| NotImplementedError
| UaError.

Inductive outcome (A : Type) : Type :=
| Returns (a : A)
| Raises (e : exn).
Arguments Returns {A} a.
Arguments Raises {A} e.

Definition M (S A : Type) : Type := S → outcome A * S.

#[global] Instance M_ret {S} : MRet (M S) := λ A a s, (Returns a, s).
#[global] Instance M_bind {S} : MBind (M S) := λ A B f m s,
  match m s with
  | (Returns a, s') => f a s'
  | (Raises e, s') => (Raises e, s')
  end.

Definition raise {S A} (e : exn) : M S A := λ s, (Raises e, s).
Definition get {S} : M S S := λ s, (Returns s, s).
Definition put {S} (s : S) : M S unit := λ _, (Returns tt, s).
Definition lift {S A} (o : outcome A) : M S A := λ s, (o, s).

Definition obind {A B} (o : outcome A) (f : A → outcome B) : outcome B :=
  match o with
  | Returns a => f a
  | Raises e => Raises e
  end.

(** ** Times *)

Definition datetime : Type := Z.
Definition timedelta : Type := Z.

Definition usec_per_sec : Z := 1000000.

(** [time.mktime(dt.timetuple())]: the whole seconds of [dt], in a local
    time zone with a fixed offset from UTC. *)
Definition mktime_timetuple (dt : datetime) : Z := dt `div` usec_per_sec.

(** [dt.microsecond] *)
Definition microsecond (dt : datetime) : Z := dt `mod` usec_per_sec.

(** [datetime.fromtimestamp(n)] for an integer [n], in a local time zone
    with a fixed offset from UTC. *)
Definition fromtimestamp (n : Z) : datetime := n * usec_per_sec.

(** [t] with its sub-second part dropped. *)
Definition whole_seconds (t : datetime) : datetime :=
  t `div` usec_per_sec * usec_per_sec.

(** ** Bytes and [struct] with format ["!L"] *)

Definition byte_of_Z (z : Z) : Byte.byte :=
  default Byte.x00 (Byte.of_N (Z.to_N (Z.land z 255))).

Definition Z_of_byte (b : Byte.byte) : Z := Z.of_N (Byte.to_N b).

(** The interpreter decides what [struct.pack] does with a float given to an
    integer format: Python 2.7 truncates it (with a DeprecationWarning),
    Python 3 raises [struct.error]. *)
Inductive interpreter : Type := Python2 | Python3.

(** [int(x)] of a float: truncation towards zero. *)
Definition float_trunc (x : Q) : Z := Z.quot (Qnum x) (Z.pos (Qden x)).

(** Four bytes, most significant first. *)
Definition pack_be32 (v : Z) : list Byte.byte :=
  [ byte_of_Z (Z.shiftr v 24); byte_of_Z (Z.shiftr v 16);
    byte_of_Z (Z.shiftr v 8); byte_of_Z v ].

(** [struct.pack("!L", x)] for a float [x]. *)
Definition struct_pack_L (py : interpreter) (x : Q) : outcome (list Byte.byte) :=
  match py with
  | Python3 => Raises StructError
  | Python2 =>
      let v := float_trunc x in
      if bool_decide (0 ≤ v ∧ v < 2 ^ 32) then Returns (pack_be32 v)
      else Raises StructError
  end.

(** [struct.unpack('!L', data)[0]]: [data] must hold exactly four bytes. *)
Definition struct_unpack_L (data : list Byte.byte) : outcome Z :=
  match data with
  | [b0; b1; b2; b3] =>
      Returns (Z.lor (Z.shiftl (Z_of_byte b0) 24)
              (Z.lor (Z.shiftl (Z_of_byte b1) 16)
              (Z.lor (Z.shiftl (Z_of_byte b2) 8) (Z_of_byte b3))))
  | _ => Raises StructError
  end.

(** ** The continuation-point codec *)

Definition datetime_to_bytes (py : interpreter) (dt : datetime)
  : outcome (list Byte.byte) :=
  let time_float :=
    (inject_Z (mktime_timetuple dt) + (microsecond dt # 1000000))%Q in
  struct_pack_L py time_float.

Definition bytes_to_datetime (data : list Byte.byte) : outcome datetime :=
  obind (struct_unpack_L data) (λ time_float, Returns (fromtimestamp time_float)).

(** ** Data values and the Python values the manager handles *)

Definition NodeId : Type := nat.

(** [ua.DataValue] with the attributes it has in the library: a value, a
    source timestamp and a server timestamp. A timestamp is [None] unless
    it was set. There is no attribute [SourceTimeStamp]. *)
Record DataValue : Type := mkDataValue {
  Value : Z;
  SourceTimestamp : option datetime;
  ServerTimestamp : option datetime;
}.

#[global] Instance DataValue_eq_dec : EqDecision DataValue.
Proof. solve_decision. Defined.

(** What a storage backend may hand back to the manager. *)
#[warnings="-register-all"]
Inductive pyval : Type :=
| VNone
| VBool (b : bool)
| VInt (z : Z)
| VBytes (data : list Byte.byte)
| VDataValue (d : DataValue)
| VList (items : list pyval)
| VTuple (items : list pyval).

(** Truth value of [if v:]; an instance of a class that defines neither
    [__bool__] nor [__len__] is true. *)
Definition truthy (v : pyval) : bool :=
  match v with
  | VNone => false
  | VBool b => b
  | VInt z => negb (z =? 0)
  | VBytes data => negb (bool_decide (data = []))
  | VDataValue _ => true
  | VList items | VTuple items =>
      match items with [] => false | _ => true end
  end.

(** [a, b = v] *)
Definition unpack2 (v : pyval) : outcome (pyval * pyval) :=
  match v with
  | VList items | VTuple items =>
      match items with
      | [a; b] => Returns (a, b)
      | _ => Raises ValueError
      end
  | VBytes data =>
      match data with
      | [a; b] => Returns (VInt (Z_of_byte a), VInt (Z_of_byte b))
      | _ => Raises ValueError
      end
  | VNone | VBool _ | VInt _ | VDataValue _ => Raises TypeError
  end.

(** [v[-1]] *)
Definition index_last (v : pyval) : outcome pyval :=
  match v with
  | VList items | VTuple items =>
      match last items with
      | Some x => Returns x
      | None => Raises IndexError
      end
  | VBytes data =>
      match last data with
      | Some b => Returns (VInt (Z_of_byte b))
      | None => Raises IndexError
      end
  | VNone | VBool _ | VInt _ | VDataValue _ => Raises TypeError
  end.

(** [v.SourceTimeStamp]: none of the values has an attribute of this name
    (the one of a data value is [SourceTimestamp]). *)
Definition getattr_SourceTimeStamp (v : pyval) : outcome datetime :=
  Raises AttributeError.

(** ** The storage interface *)

(** [class HistoryStorageInterface]; [now] is the reading of the wall clock
    that [save_datavalue] takes. Events and event filters are opaque. *)
Class HistoryStorageInterface (S : Type) : Type := {
  new_node : NodeId → option timedelta → Z → M S unit;
  save_datavalue : NodeId → DataValue → datetime → M S unit;
  read_datavalues : NodeId → datetime → datetime → Z → M S pyval;
  new_event : Z → option timedelta → M S unit;
  save_event : Z → M S unit;
  read_events : datetime → datetime → Z → M S pyval;
}.

(** ** [HistoryDict]: the in-memory backend *)

Definition loc : Type := nat.

(** [_events] starts as a dictionary and [new_event] rebinds it to a list. *)
Inductive events_store : Type := EmptyDict | EmptyList.

(** The dictionaries of the backend. The values of [_datachanges] are list
    objects: [_datachanges] holds references, [objects] the lists. *)
Record HistoryDict : Type := mkHistoryDict {
  _datachanges : gmap NodeId loc;
  _datachanges_period : gmap NodeId (option timedelta * Z);
  _events : events_store;
  objects : gmap loc (list DataValue);
}.

Module HistoryDict.

Definition __init__ : HistoryDict :=
  {| _datachanges := ∅; _datachanges_period := ∅;
     _events := EmptyDict; objects := ∅ |}.

(** The list object behind [r] becomes [l]. *)
Definition store (r : loc) (l : list DataValue) (s : HistoryDict)
  : HistoryDict :=
  {| _datachanges := _datachanges s;
     _datachanges_period := _datachanges_period s;
     _events := _events s;
     objects := <[r := l]> (objects s) |}.

(** A new list object. *)
Definition alloc (l : list DataValue) : M HistoryDict loc := λ s,
  let r := fresh (dom (objects s)) in (Returns r, store r l s).

(** The list a reference points to. *)
Definition deref (r : loc) (s : HistoryDict) : list DataValue :=
  default [] (objects s !! r).

(** Run [m] on the list object behind [r], in place. *)
Definition on_list {A} (r : loc) (m : M (list DataValue) A)
  : M HistoryDict A := λ s,
  let '(o, l') := m (deref r s) in (o, store r l' s).

(** [d[k]] *)
Definition getitem {V} (d : gmap NodeId V) (k : NodeId) : outcome V :=
  match d !! k with
  | Some v => Returns v
  | None => Raises KeyError
  end.

(** [data.append(x)] *)
Definition append (x : DataValue) : M (list DataValue) unit :=
  λ l, (Returns tt, l ++ [x]).

(** [len(data)] *)
Definition len : M (list DataValue) Z :=
  λ l, (Returns (Z.of_nat (length l)), l).

(** The list [l[i:]] *)
Definition slice (i : Z) (l : list DataValue) : list DataValue :=
  let n := Z.of_nat (length l) in
  let start := if i <? 0 then Z.max 0 (n + i) else Z.min i n in
  drop (Z.to_nat start) l.

(** [data[i:]] *)
Definition slice_from (i : Z) : M (list DataValue) (list DataValue) :=
  λ l, (Returns (slice i l), l).

(** [while now - data[0].ServerTimestamp > period: data.pop(0)]; the
    subtraction raises on a record without server timestamp. *)
Fixpoint evict (now : datetime) (period : timedelta)
  (data : list DataValue) : outcome unit * list DataValue :=
  match data with
  | [] => (Raises IndexError, [])
  | d :: rest =>
      match ServerTimestamp d with
      | None => (Raises TypeError, data)
      | Some t =>
          if now - t >? period
          then evict now period rest
          else (Returns tt, data)
      end
  end.

(** [[dv for dv in data if start <= dv.ServerTimestamp <= end]]; the
    comparison raises on a record without server timestamp. *)
Fixpoint select (start end_ : datetime) (data : list DataValue)
  : outcome (list DataValue) :=
  match data with
  | [] => Returns []
  | dv :: rest =>
      match ServerTimestamp dv with
      | None => Raises TypeError
      | Some t =>
          obind (select start end_ rest) (λ l,
            Returns (if bool_decide (start ≤ t ∧ t ≤ end_) then dv :: l else l))
      end
  end.

Definition new_node (node : NodeId) (period : option timedelta) (count : Z)
  : M HistoryDict unit :=
  r ← alloc [];
  s ← get;
  put {| _datachanges := <[node := r]> (_datachanges s);
         _datachanges_period :=
           <[node := (period, count)]> (_datachanges_period s);
         _events := _events s;
         objects := objects s |}.

Definition new_event (event : Z) (period : option timedelta)
  : M HistoryDict unit :=
  s ← get;
  put {| _datachanges := _datachanges s;
         _datachanges_period := _datachanges_period s;
         _events := EmptyList;
         objects := objects s |}.

(** The body of [save_datavalue]; the value is what the local variable
    [data] refers to when the function ends. *)
Definition save_datavalue_body (node : NodeId) (datavalue : DataValue)
  (now : datetime) : M HistoryDict loc :=
  s ← get;
  data ← lift (getitem (_datachanges s) node);
  '(period, count) ← lift (getitem (_datachanges_period s) node);
  on_list data (append datavalue);;
  match period with
  | Some p => if negb (p =? 0) then on_list data (evict now p) else mret tt
  | None => mret tt
  end;;
  n ← on_list data len;
  if negb (count =? 0) && (n >? count)
  then
    trimmed ← on_list data (slice_from (- count));
    alloc trimmed
  else mret data.

Definition save_datavalue (node : NodeId) (datavalue : DataValue)
  (now : datetime) : M HistoryDict unit :=
  save_datavalue_body node datavalue now;; mret tt.

Definition read_datavalues (node : NodeId) (start end_ : datetime)
  (nb_values : Z) : M HistoryDict (list DataValue) :=
  s ← get;
  match _datachanges s !! node with
  | None => mret []
  | Some r => lift (select start end_ (deref r s))
  end.

Definition save_event (timestamp event : Z) : M HistoryDict unit :=
  raise NotImplementedError.

Definition read_events (start end_ : datetime) (evfilter : Z)
  : M HistoryDict pyval :=
  raise NotImplementedError.

End HistoryDict.

#[global] Instance HistoryDict_storage : HistoryStorageInterface HistoryDict := {
  new_node := HistoryDict.new_node;
  save_datavalue := HistoryDict.save_datavalue;
  read_datavalues node start end_ nb_values :=
    l ← HistoryDict.read_datavalues node start end_ nb_values;
    mret (VList (VDataValue <$> l));
  new_event := HistoryDict.new_event;
  (* [HistoryDict.save_event] takes a timestamp and an event: the
     one-argument call of the interface lacks an argument. *)
  save_event event := raise TypeError;
  read_events := HistoryDict.read_events;
}.

(** ** The subscription engine *)

Definition handle : Type := nat.

(** Modelled from the spec: [opcua.Subscription] is an external collaborator
    (section 6 of the specification): [subscribeDataChange(node)] yields an
    item handle and [unsubscribe(handle)] drops it. Only the handles and the
    nodes they monitor are kept. *)
Record Subscription : Type := mkSubscription {
  monitored : gmap handle NodeId;
  next_handle : handle;
}.

Module Subscription.

Definition create : Subscription :=
  {| monitored := ∅; next_handle := 1%nat |}.

Definition subscribe_data_change (node : NodeId) : M Subscription handle :=
  λ sub,
  (Returns (next_handle sub),
   {| monitored := <[next_handle sub := node]> (monitored sub);
      next_handle := S (next_handle sub) |}).

Definition unsubscribe (h : handle) : M Subscription unit := λ sub,
  (Returns tt,
   {| monitored := delete h (monitored sub);
      next_handle := next_handle sub |}).

End Subscription.

(** ** Requests and results *)

Inductive StatusCodes : Type := Good | BadNotImplemented | BadNotWritable.

Record ReadRawModifiedDetails : Type := mkReadRawModifiedDetails {
  IsReadModified : bool;
  StartTime : datetime;
  EndTime : datetime;
  NumValuesPerNode : Z;
}.

Record ReadEventDetails : Type := mkReadEventDetails {
  EvStartTime : datetime;
  EvEndTime : datetime;
  Filter : Z;
}.

(** The cases of [type(details)] that [_read_history] tells apart. *)
Inductive HistoryReadDetails : Type :=
| RawModified (d : ReadRawModifiedDetails)
| Event (d : ReadEventDetails)
| OtherDetails.

Record HistoryReadValueId : Type := mkHistoryReadValueId {
  RvNodeId : NodeId;
  ContinuationPoint : list Byte.byte;
}.

Record HistoryReadParameters : Type := mkHistoryReadParameters {
  HistoryReadDetails_ : HistoryReadDetails;
  NodesToRead : list HistoryReadValueId;
}.

Inductive history_data : Type :=
| NoHistoryData
| HistoryModifiedData (DataValues : pyval)
| HistoryData (DataValues : pyval)
| HistoryEvent (Events : pyval).

(** [ua.HistoryReadResult]; a fresh one is [Good], with an empty
    continuation point and no data. *)
Record HistoryReadResult : Type := mkHistoryReadResult {
  StatusCode : StatusCodes;
  ResContinuationPoint : pyval;
  HistoryData_ : history_data;
}.

Definition new_HistoryReadResult : HistoryReadResult :=
  {| StatusCode := Good; ResContinuationPoint := VBytes [];
     HistoryData_ := NoHistoryData |}.

Record HistoryUpdateParameters : Type := mkHistoryUpdateParameters {
  HistoryUpdateDetails : list Z;
}.

(** The objects [update_history] creates: result objects and list objects,
    a list holding references. *)
Inductive pyobj : Type :=
| OHistoryUpdateResult (status : StatusCodes)
| OList (items : list loc).

(** [l.append(x)] on the object [l] refers to. *)
Definition obj_append (x : loc) (o : pyobj) : pyobj :=
  match o with
  | OList items => OList (items ++ [x])
  | OHistoryUpdateResult _ => o
  end.

(** ** [SubHandler] *)

Section SubHandler.
Context {S : Type} `{HistoryStorageInterface S}.

(** [data.monitored_item.Value] is the data value of the notification. *)
Definition datachange_notification (node : NodeId) (val : Z)
  (data : DataValue) (now : datetime) : M S unit :=
  save_datavalue node data now.

Definition event_notification (event : Z) : M S unit :=
  save_event event.

End SubHandler.

(** ** [HistoryManager] *)

Record HistoryManager (S : Type) : Type := mkHistoryManager {
  storage : S;
  _sub : option Subscription;
  _handlers : gmap NodeId handle;
}.
Arguments mkHistoryManager {S} _ _ _.
Arguments storage {S} _.
Arguments _sub {S} _.
Arguments _handlers {S} _.

Section HistoryManager.
Context (py : interpreter) {S : Type} `{HistoryStorageInterface S}.

(** A call on [self.storage]. *)
Definition on_storage {A} (m : M S A) : M (HistoryManager S) A := λ hm,
  let '(o, st) := m (storage hm) in
  (o, {| storage := st; _sub := _sub hm; _handlers := _handlers hm |}).

(** A call on the subscription object [sub]. *)
Definition on_sub {A} (sub : Subscription) (m : M Subscription A)
  : M (HistoryManager S) A := λ hm,
  let '(o, sub') := m sub in
  (o, {| storage := storage hm; _sub := Some sub';
         _handlers := _handlers hm |}).

Definition set_storage (st : S) : M (HistoryManager S) unit := λ hm,
  (Returns tt,
   {| storage := st; _sub := _sub hm; _handlers := _handlers hm |}).

Definition _create_subscription : Subscription := Subscription.create.

Definition historize (node : NodeId) (period : option timedelta) (count : Z)
  : M (HistoryManager S) unit :=
  hm ← get;
  sub ← match _sub hm with
        | None =>
            put {| storage := storage hm;
                   _sub := Some _create_subscription;
                   _handlers := _handlers hm |};;
            mret _create_subscription
        | Some sub => mret sub
        end;
  (if bool_decide (is_Some (_handlers hm !! node))
   then raise UaError else mret tt);;
  on_storage (new_node node period count);;
  handler ← on_sub sub (Subscription.subscribe_data_change node);
  hm ← get;
  put {| storage := storage hm; _sub := _sub hm;
         _handlers := <[node := handler]> (_handlers hm) |}.

Definition dehistorize (node : NodeId) : M (HistoryManager S) unit :=
  hm ← get;
  (* [self._sub.unsubscribe]: the attribute is looked up first *)
  sub ← match _sub hm with
        | None => raise AttributeError
        | Some sub => mret sub
        end;
  (* [self._handlers[node]] *)
  handler ← lift (HistoryDict.getitem (_handlers hm) node);
  on_sub sub (Subscription.unsubscribe handler);;
  hm ← get;
  put {| storage := storage hm; _sub := _sub hm;
         _handlers := delete node (_handlers hm) |}.

Definition read_datavalue_history (rv : HistoryReadValueId)
  (details : ReadRawModifiedDetails) : M (HistoryManager S) (pyval * pyval) :=
  starttime ← match ContinuationPoint rv with
              | [] => mret (StartTime details)
              | _ => lift (bytes_to_datetime (ContinuationPoint rv))
              end;
  r ← on_storage (read_datavalues (RvNodeId rv) starttime (EndTime details)
                                  (NumValuesPerNode details));
  '(dv, cont) ← lift (unpack2 r);
  cont ← (if truthy cont
          then lift (obind (index_last dv) (λ x,
                     obind (getattr_SourceTimeStamp x) (λ t,
                     obind (datetime_to_bytes py t) (λ b,
                     Returns (VBytes b)))))
          else mret cont);
  mret (dv, cont).

(** The methods of the class that take [(rv, details)], by name. The
    other attributes of an instance are [iserver], [storage], [_sub],
    [_handlers], [set_storage], [_create_subscription], [historize],
    [dehistorize], [read_history], [_read_history] and [update_history]. *)
Definition getattr_method (name : string)
  : outcome (HistoryReadValueId → ReadRawModifiedDetails →
             M (HistoryManager S) (pyval * pyval)) :=
  if bool_decide (name = "read_datavalue_history")
  then Returns read_datavalue_history
  else Raises AttributeError.

Definition _read_history (details : HistoryReadDetails)
  (rv : HistoryReadValueId) : M (HistoryManager S) HistoryReadResult :=
  let result := new_HistoryReadResult in
  match details with
  | RawModified d =>
      if IsReadModified d then
        let result := {| StatusCode := StatusCode result;
                         ResContinuationPoint := ResContinuationPoint result;
                         HistoryData_ := HistoryModifiedData VNone |} in
        f ← lift (getattr_method "_read_datavalue_history");
        '(dv, cont) ← f rv d;
        mret {| StatusCode := StatusCode result;
                ResContinuationPoint := cont;
                HistoryData_ := HistoryModifiedData dv |}
      else
        let result := {| StatusCode := StatusCode result;
                         ResContinuationPoint := ResContinuationPoint result;
                         HistoryData_ := HistoryData VNone |} in
        f ← lift (getattr_method "_read_datavalue_history");
        '(dv, cont) ← f rv d;
        mret {| StatusCode := StatusCode result;
                ResContinuationPoint := cont;
                HistoryData_ := HistoryData dv |}
  | Event d =>
      ev ← on_storage (read_events (EvStartTime d) (EvEndTime d) (Filter d));
      mret {| StatusCode := StatusCode result;
              ResContinuationPoint := ResContinuationPoint result;
              HistoryData_ := HistoryEvent ev |}
  | OtherDetails =>
      mret {| StatusCode := BadNotImplemented;
              ResContinuationPoint := ResContinuationPoint result;
              HistoryData_ := HistoryData_ result |}
  end.

(** The loop of [read_history], [results] being the list built so far. *)
Fixpoint read_history_loop (details : HistoryReadDetails)
  (nodes : list HistoryReadValueId) (results : list HistoryReadResult)
  : M (HistoryManager S) (list HistoryReadResult) :=
  match nodes with
  | [] => mret results
  | rv :: nodes =>
      res ← _read_history details rv;
      read_history_loop details nodes (results ++ [res])
  end.

Definition read_history (params : HistoryReadParameters)
  : M (HistoryManager S) (list HistoryReadResult) :=
  read_history_loop (HistoryReadDetails_ params) (NodesToRead params) [].

(** One turn of the loop of [update_history] on the object store [h],
    [results] being the reference the variable of that name holds. *)
Definition update_history_step (results : loc) (h : gmap loc pyobj)
  (details : Z) : gmap loc pyobj :=
  (* [result = ua.HistoryUpdateResult()] *)
  let result := fresh (dom h) in
  let h := <[result := OHistoryUpdateResult Good]> h in
  (* [result.StatusCode = ua.StatusCode(ua.StatusCodes.BadNotWritable)] *)
  let h := <[result := OHistoryUpdateResult BadNotWritable]> h in
  (* [results.append(results)] *)
  alter (obj_append results) results h.

(** The value is the reference returned together with the objects the call
    created. *)
Definition update_history (params : HistoryUpdateParameters)
  : M (HistoryManager S) (loc * gmap loc pyobj) :=
  let results : loc := fresh (dom (∅ : gmap loc pyobj)) in
  let h := {[ results := OList [] ]} in
  mret (results,
        foldl (update_history_step results) h (HistoryUpdateDetails params)).

End HistoryManager.

(** [HistoryManager(iserver)] *)
Definition HistoryManager__init__ : HistoryManager HistoryDict :=
  {| storage := HistoryDict.__init__; _sub := None; _handlers := ∅ |}.

(** ** Auxiliary definitions for the statements *)

(** What the age-eviction statement of [save_datavalue] does to the list
    [data] for a node registered with [period]. *)
Definition age_evicted (period : option timedelta) (now : datetime)
  (data : list DataValue) : outcome unit * list DataValue :=
  match period with
  | Some p =>
      if negb (p =? 0) then HistoryDict.evict now p data
      else (Returns tt, data)
  | None => (Returns tt, data)
  end.

(** A data value [v] stamped [t] by source and server alike. *)
Definition dv_at (v : Z) (t : datetime) : DataValue :=
  {| Value := v; SourceTimestamp := Some t; ServerTimestamp := Some t |}.

(** A data value [v] without timestamps, as [ua.DataValue(v)] builds it. *)
Definition dv_unstamped (v : Z) : DataValue :=
  {| Value := v; SourceTimestamp := None; ServerTimestamp := None |}.

(** The record carries a server timestamp. *)
Definition stamped (d : DataValue) : Prop := is_Some (ServerTimestamp d).

(** The record carries a server timestamp, which lies in the closed range. *)
Definition in_range (start end_ : datetime) (d : DataValue) : Prop :=
  ∃ t, ServerTimestamp d = Some t ∧ start ≤ t ∧ t ≤ end_.

#[global] Instance in_range_dec start end_ d : Decision (in_range start end_ d).
Proof.
  unfold in_range. destruct (ServerTimestamp d) as [t|].
  - destruct (decide (start ≤ t ∧ t ≤ end_)) as [Hin|Hout].
    + left. eauto.
    + right. intros (t' & [= <-] & Hin). tauto.
  - right. intros (t' & [=] & _).
Defined.

(** The record carries a server timestamp, older than [p] at [now]. *)
Definition stale (now : datetime) (p : timedelta) (d : DataValue) : Prop :=
  ∃ t, ServerTimestamp d = Some t ∧ now - t > p.

Definition seconds (n : Z) : Z := n * usec_per_sec.

(** Scenario A: node 1 registered with a count of 3 and no period, five
    values appended one second apart, then a read of the whole range. *)
Definition scenario_A : M HistoryDict (list DataValue) :=
  HistoryDict.new_node 1%nat None 3;;
  HistoryDict.save_datavalue 1%nat (dv_at 1 (seconds 1)) (seconds 10);;
  HistoryDict.save_datavalue 1%nat (dv_at 2 (seconds 2)) (seconds 10);;
  HistoryDict.save_datavalue 1%nat (dv_at 3 (seconds 3)) (seconds 10);;
  HistoryDict.save_datavalue 1%nat (dv_at 4 (seconds 4)) (seconds 10);;
  HistoryDict.save_datavalue 1%nat (dv_at 5 (seconds 5)) (seconds 10);;
  HistoryDict.read_datavalues 1%nat 0 (seconds 10) 0.

(** A manager on the default backend that historizes node 1 (no period, no
    count) and has received five notifications for it. *)
Definition five_records : M (HistoryManager HistoryDict) unit :=
  historize 1%nat None 0;;
  on_storage (datachange_notification 1%nat 1 (dv_at 1 (seconds 1)) (seconds 10));;
  on_storage (datachange_notification 1%nat 2 (dv_at 2 (seconds 2)) (seconds 10));;
  on_storage (datachange_notification 1%nat 3 (dv_at 3 (seconds 3)) (seconds 10));;
  on_storage (datachange_notification 1%nat 4 (dv_at 4 (seconds 4)) (seconds 10));;
  on_storage (datachange_notification 1%nat 5 (dv_at 5 (seconds 5)) (seconds 10)).

Definition manager_with_five_records : HistoryManager HistoryDict :=
  (five_records HistoryManager__init__).2.

(** The read of scenario E: two values per node over the whole range. *)
Definition scenario_E_details : ReadRawModifiedDetails :=
  {| IsReadModified := false; StartTime := 0; EndTime := seconds 10;
     NumValuesPerNode := 2 |}.

(** A manager that historizes node 1 and has received one notification. *)
Definition manager_with_one_record : HistoryManager HistoryDict :=
  ((historize 1%nat None 0;;
    on_storage (datachange_notification 1%nat 7 (dv_at 7 (seconds 1)) (seconds 2)))
     HistoryManager__init__).2.

(** The default backend with node 1 registered (no period, no count) and
    three records, one second apart. *)
Definition three_records : HistoryDict :=
  ((HistoryDict.new_node 1%nat None 0;;
    HistoryDict.save_datavalue 1%nat (dv_at 1 (seconds 1)) (seconds 10);;
    HistoryDict.save_datavalue 1%nat (dv_at 2 (seconds 2)) (seconds 10);;
    HistoryDict.save_datavalue 1%nat (dv_at 3 (seconds 3)) (seconds 10))
     HistoryDict.__init__).2.

(** The default backend with node 1 registered for a period of one hour. *)
Definition hourly_node : HistoryDict :=
  (HistoryDict.new_node 1%nat (Some (seconds 3600)) 0 HistoryDict.__init__).2.

(** The default backend with node 1 registered for a period of one hour and
    a count of 1, holding two records, saved at 1000 s and at 4000 s. *)
Definition hourly_two_records : HistoryDict :=
  ((HistoryDict.new_node 1%nat (Some (seconds 3600)) 1;;
    HistoryDict.save_datavalue 1%nat (dv_at 1 (seconds 1000)) (seconds 1000);;
    HistoryDict.save_datavalue 1%nat (dv_at 2 (seconds 4000)) (seconds 4000))
     HistoryDict.__init__).2.

(** The default backend with node 1 registered for a period of one hour,
    after a data value without timestamps was saved for it. *)
Definition hourly_unstamped : HistoryDict :=
  (HistoryDict.save_datavalue 1%nat (dv_unstamped 1) (seconds 10)
     hourly_node).2.

(** Records that all carry a server timestamp, the timestamps not
    decreasing along the list. *)
Definition ascending (l : list DataValue) : Prop :=
  Forall stamped l ∧
  StronglySorted
    (λ a b, ∀ ta tb, ServerTimestamp a = Some ta → ServerTimestamp b = Some tb →
                     ta ≤ tb) l.

(** The dictionaries of a backend fit together: a node has a list exactly
    when it has a period and a count, its list reference points to a list
    object, and no two nodes share a list object. *)
Definition consistent (s : HistoryDict) : Prop :=
  (∀ node, is_Some (_datachanges s !! node)
           ↔ is_Some (_datachanges_period s !! node)) ∧
  (∀ node r, _datachanges s !! node = Some r → is_Some (objects s !! r)) ∧
  (∀ n1 n2 r, _datachanges s !! n1 = Some r →
              _datachanges s !! n2 = Some r → n1 = n2).

(** A call of a method of [HistoryDict], as the manager, the notification
    handler or a client makes it. *)
Inductive storage_call : Type :=
| CallNewNode (node : NodeId) (period : option timedelta) (count : Z)
| CallNewEvent (event : Z) (period : option timedelta)
| CallSaveDatavalue (node : NodeId) (datavalue : DataValue) (now : datetime)
| CallReadDatavalues (node : NodeId) (start end_ : datetime) (nb_values : Z)
| CallSaveEvent (timestamp event : Z)
| CallReadEvents (start end_ : datetime) (evfilter : Z).

(** The backend after a call, whether the call returned or raised. *)
Definition after_call (s : HistoryDict) (c : storage_call) : HistoryDict :=
  match c with
  | CallNewNode node period count => (HistoryDict.new_node node period count s).2
  | CallNewEvent event period => (HistoryDict.new_event event period s).2
  | CallSaveDatavalue node dv now => (HistoryDict.save_datavalue node dv now s).2
  | CallReadDatavalues node start end_ nb =>
      (HistoryDict.read_datavalues node start end_ nb s).2
  | CallSaveEvent timestamp event => (HistoryDict.save_event timestamp event s).2
  | CallReadEvents start end_ evfilter =>
      (HistoryDict.read_events start end_ evfilter s).2
  end.

(** The backend after a sequence of calls on a new backend. *)
Definition after_calls (calls : list storage_call) : HistoryDict :=
  foldl after_call HistoryDict.__init__ calls.

(** * Properties *)

Ltac unfold_M :=
  unfold mbind, mret, M_bind, M_ret, get, put, lift, raise in *.

(** ** The codec *)

Lemma Z_of_byte_of_Z (z : Z) : Z_of_byte (byte_of_Z z) = z `mod` 256.
Proof.
  unfold Z_of_byte, byte_of_Z.
  change 255 with (Z.ones 8). rewrite Z.land_ones by lia.
  change (2 ^ 8) with 256.
  assert (Hr : 0 ≤ z `mod` 256 < 256) by (apply Z.mod_pos_bound; lia).
  destruct (Byte.of_N (Z.to_N (z `mod` 256))) as [b|] eqn:Hb; simpl.
  - apply Byte.to_of_N in Hb. rewrite Hb. lia.
  - apply Byte.of_N_None_iff in Hb. lia.
Qed.

Lemma lor_shiftl_low (a b n : Z) :
  0 ≤ n → 0 ≤ b < 2 ^ n → Z.lor (Z.shiftl a n) b = a * 2 ^ n + b.
Proof.
  intros Hn Hb. rewrite <- Z.shiftl_mul_pow2 by lia.
  symmetry. apply Z.add_nocarry_lor.
  apply Z.bits_inj'. intros k Hk.
  rewrite Z.land_spec, Z.bits_0.
  destruct (Z.lt_ge_cases k n) as [Hlt|Hge].
  - rewrite Z.shiftl_spec_low by lia. reflexivity.
  - assert (Hbk : Z.testbit b k = false).
    { destruct (Z.eq_dec b 0) as [->|Hb0]; [apply Z.bits_0|].
      apply Z.bits_above_log2; [lia|].
      apply Z.lt_le_trans with n; [|lia].
      apply Z.log2_lt_pow2; lia. }
    rewrite Hbk. apply andb_false_r.
Qed.

Lemma struct_unpack_pack (v : Z) :
  0 ≤ v < 2 ^ 32 → struct_unpack_L (pack_be32 v) = Returns v.
Proof.
  intros Hv. unfold pack_be32, struct_unpack_L. f_equal.
  rewrite !Z_of_byte_of_Z, !Z.shiftr_div_pow2 by lia.
  assert (H0 : 0 ≤ v `mod` 256 < 256) by (apply Z.mod_pos_bound; lia).
  assert (H1 : 0 ≤ (v `div` 2 ^ 8) `mod` 256 < 256)
    by (apply Z.mod_pos_bound; lia).
  assert (H2 : 0 ≤ (v `div` 2 ^ 16) `mod` 256 < 256)
    by (apply Z.mod_pos_bound; lia).
  assert (H3 : 0 ≤ (v `div` 2 ^ 24) `mod` 256 < 256)
    by (apply Z.mod_pos_bound; lia).
  rewrite (lor_shiftl_low _ (v `mod` 256) 8) by lia.
  rewrite (lor_shiftl_low _ _ 16) by lia.
  rewrite (lor_shiftl_low _ _ 24) by lia.
  change (2 ^ 8) with 256 in *. change (2 ^ 16) with 65536 in *.
  change (2 ^ 24) with 16777216 in *. change (2 ^ 32) with 4294967296 in *.
  Z.div_mod_to_equations. lia.
Qed.

(** A token of any other length than four does not decode. *)
Lemma bytes_to_datetime_wrong_length (data : list Byte.byte) :
  length data ≠ 4%nat → bytes_to_datetime data = Raises StructError.
Proof.
  intros Hlen. unfold bytes_to_datetime, struct_unpack_L.
  destruct data as [|b0 [|b1 [|b2 [|b3 [|b4 data]]]]]; simpl in *;
    congruence.
Qed.

(** A token of four bytes always decodes. *)
Lemma bytes_to_datetime_four_bytes (data : list Byte.byte) :
  length data = 4%nat → ∃ t, bytes_to_datetime data = Returns t.
Proof.
  intros Hlen. unfold bytes_to_datetime, struct_unpack_L.
  destruct data as [|b0 [|b1 [|b2 [|b3 [|b4 data]]]]]; simpl in *;
    try congruence.
  eexists. reflexivity.
Qed.

(** The float handed to [struct.pack] truncates to the whole seconds. *)
Lemma float_trunc_time_float (t : datetime) :
  0 ≤ t →
  float_trunc (inject_Z (mktime_timetuple t) + (microsecond t # 1000000))%Q
  = t `div` usec_per_sec.
Proof.
  intros Ht. unfold float_trunc, mktime_timetuple, microsecond, usec_per_sec.
  cbn [Qplus Qnum Qden inject_Z].
  assert (Hm : 0 ≤ t `mod` 1000000 < 1000000) by (apply Z.mod_pos_bound; lia).
  assert (Hd : 0 ≤ t `div` 1000000) by (apply Z.div_pos; lia).
  rewrite Z.quot_div_nonneg by lia.
  change (Z.pos (1 * 1000000)) with 1000000.
  Z.div_mod_to_equations. lia.
Qed.

(** Under Python 3 the encoder raises on every timestamp: the float is
    refused by the integer format. *)
Lemma datetime_to_bytes_python3 (t : datetime) :
  datetime_to_bytes Python3 t = Raises StructError.
Proof. reflexivity. Qed.

(** From 2^32 seconds after the epoch on, the encoder raises under either
    interpreter: the seconds do not fit the four-byte format. *)
Lemma datetime_to_bytes_out_of_range py (t : datetime) :
  2 ^ 32 * usec_per_sec ≤ t → datetime_to_bytes py t = Raises StructError.
Proof.
  intros Ht. destruct py; [|reflexivity].
  unfold datetime_to_bytes, struct_pack_L.
  rewrite float_trunc_time_float by (unfold usec_per_sec in *; lia).
  assert (Hv : 2 ^ 32 ≤ t `div` usec_per_sec).
  { unfold usec_per_sec in *. apply Z.div_le_lower_bound; lia. }
  rewrite bool_decide_eq_false_2 by lia. reflexivity.
Qed.

(** The value of four bytes read most significant first. *)
Lemma big_endian_pack (v : Z) :
  0 ≤ v < 2 ^ 32 →
  ∃ b0 b1 b2 b3,
    pack_be32 v = [b0; b1; b2; b3] ∧
    Z_of_byte b0 * 2 ^ 24 + Z_of_byte b1 * 2 ^ 16 + Z_of_byte b2 * 2 ^ 8
    + Z_of_byte b3 = v.
Proof.
  intros Hv. unfold pack_be32. eexists _, _, _, _. split; [reflexivity|].
  rewrite !Z_of_byte_of_Z, !Z.shiftr_div_pow2 by lia.
  change (2 ^ 8) with 256 in *. change (2 ^ 16) with 65536 in *.
  change (2 ^ 24) with 16777216 in *. change (2 ^ 32) with 4294967296 in *.
  Z.div_mod_to_equations. lia.
Qed.

(** Where [struct.pack] truncates a float (Python 2.7), the encoder returns
    on every timestamp from the epoch up to 2^32 seconds after it. *)
Lemma datetime_to_bytes_python2_returns (t : datetime) :
  0 ≤ t < 2 ^ 32 * usec_per_sec →
  datetime_to_bytes Python2 t = Returns (pack_be32 (t `div` usec_per_sec)).
Proof.
  intros Ht. unfold datetime_to_bytes, struct_pack_L.
  rewrite float_trunc_time_float by lia.
  assert (Hv : 0 ≤ t `div` usec_per_sec < 2 ^ 32).
  { unfold usec_per_sec in *. split; [apply Z.div_pos; lia|].
    apply Z.div_lt_upper_bound; lia. }
  by rewrite bool_decide_eq_true_2 by lia.
Qed.




(** ** The in-memory backend *)

Section HistoryDict_facts.
Import HistoryDict.

Lemma deref_store_eq r l s : deref r (store r l s) = l.
Proof. unfold deref, store. simpl. by rewrite lookup_insert_eq. Qed.

Lemma deref_store_ne r r' l s :
  r ≠ r' → deref r' (store r l s) = deref r' s.
Proof.
  intros Hne. unfold deref, store. simpl. by rewrite lookup_insert_ne.
Qed.

(** A new list object never takes the place of an existing one. *)
Lemma fresh_insert_ne (r : loc) (l : list DataValue)
  (m : gmap loc (list DataValue)) :
  fresh (dom (<[r:=l]> m)) ≠ r.
Proof.
  intros Heq. pose proof (is_fresh (dom (<[r:=l]> m))) as Hf.
  rewrite Heq in Hf. apply Hf.
  apply elem_of_dom. rewrite lookup_insert_eq. eauto.
Qed.

(** What [save_datavalue] does for a registered node: the value is
    appended, age eviction runs on the stored list, and nothing else
    happens to it; in particular [count] has no bearing on the outcome or
    on the stored list, the trimmed slice being bound to the local
    variable only. *)
Lemma save_datavalue_stored s node r period count dv now :
  _datachanges s !! node = Some r →
  _datachanges_period s !! node = Some (period, count) →
  ∃ s',
    save_datavalue node dv now s
      = ((age_evicted period now (deref r s ++ [dv])).1, s') ∧
    deref r s' = (age_evicted period now (deref r s ++ [dv])).2 ∧
    _datachanges s' = _datachanges s ∧
    _datachanges_period s' = _datachanges_period s.
Proof.
  intros Hd Hp.
  unfold save_datavalue, save_datavalue_body.
  unfold_M. unfold getitem. rewrite Hd, Hp.
  unfold on_list, append, len, slice_from, alloc, age_evicted. simpl.
  destruct period as [p|]; [destruct (negb (p =? 0))|]; simpl;
    rewrite ?deref_store_eq;
    try (destruct (evict now p (deref r s ++ [dv])) as [[[]|e] l']; simpl);
    rewrite ?deref_store_eq;
    try (destruct (negb (count =? 0) && _); simpl);
    (eexists; split; [reflexivity|]);
    rewrite ?deref_store_eq;
    try (rewrite deref_store_ne by apply fresh_insert_ne);
    rewrite ?deref_store_eq; auto.
Qed.

(** With no period the stored list grows by one on every save, whatever
    the count. *)
Lemma save_datavalue_no_period_grows s node r period count dv now :
  _datachanges s !! node = Some r →
  _datachanges_period s !! node = Some (period, count) →
  period = None ∨ period = Some 0 →
  ∃ s',
    save_datavalue node dv now s = (Returns tt, s') ∧
    deref r s' = deref r s ++ [dv].
Proof.
  intros Hd Hp Hnone.
  destruct (save_datavalue_stored s node r period count dv now Hd Hp)
    as (s' & Hrun & Hstored & _).
  exists s'. destruct Hnone as [-> | ->]; simpl in *; auto.
Qed.

(** When the local variable [data] is rebound to the trimmed slice, the
    slice is a new object and the list of the dictionary keeps every
    record. *)
Lemma save_datavalue_body_rebinds_local s node r count dv now :
  _datachanges s !! node = Some r →
  _datachanges_period s !! node = Some (None, count) →
  count ≠ 0 →
  Z.of_nat (length (deref r s ++ [dv])) > count →
  ∃ r' s',
    save_datavalue_body node dv now s = (Returns r', s') ∧
    r' ≠ r ∧
    deref r s' = deref r s ++ [dv] ∧
    deref r' s' = slice (- count) (deref r s ++ [dv]).
Proof.
  intros Hd Hp Hc Hlen.
  unfold save_datavalue_body.
  unfold_M. unfold getitem. rewrite Hd, Hp.
  unfold on_list, append, len, slice_from, alloc. simpl.
  rewrite ?deref_store_eq.
  assert (Hcond : negb (count =? 0) && (Z.of_nat (length (deref r s ++ [dv])) >? count) = true).
  { apply andb_true_intro. split.
    - apply negb_true_iff, Z.eqb_neq. done.
    - apply Z.gtb_lt. lia. }
  rewrite Hcond. simpl. rewrite ?deref_store_eq.
  eexists _, _. split; [reflexivity|].
  split; [apply fresh_insert_ne|].
  split.
  - rewrite deref_store_ne by apply fresh_insert_ne.
    by rewrite ?deref_store_eq.
  - by rewrite deref_store_eq.
Qed.

(** Saving for a node the backend does not know raises [KeyError] and
    leaves the backend as it was. *)
Lemma save_datavalue_unknown_node s node dv now :
  _datachanges s !! node = None →
  save_datavalue node dv now s = (Raises KeyError, s).
Proof.
  intros Hd. unfold save_datavalue, save_datavalue_body.
  unfold_M. unfold getitem. by rewrite Hd.
Qed.

(** Reading for an unknown node returns the empty list. *)
Lemma read_datavalues_unknown_node s node start end_ nb_values :
  _datachanges s !! node = None →
  read_datavalues node start end_ nb_values s = (Returns [], s).
Proof.
  intros Hd. unfold read_datavalues. unfold_M. by rewrite Hd.
Qed.

(** The comprehension of [read_datavalues] on a list all of whose records
    carry a server timestamp: the records in the closed range, in order. *)
Lemma select_stamped start end_ l :
  Forall stamped l →
  select start end_ l = Returns (filter (in_range start end_) l).
Proof.
  induction 1 as [|d l [t Ht] _ IH]; simpl; [done|].
  rewrite Ht, IH. simpl. rewrite filter_cons.
  destruct (decide (in_range start end_ d)) as [Hin|Hout].
  - rewrite bool_decide_eq_true_2; [done|].
    destruct Hin as (t' & Ht' & Hin). congruence.
  - rewrite bool_decide_eq_false_2; [done|].
    intros Hin. apply Hout. exists t. done.
Qed.

(** The comprehension raises as soon as one record lacks the server
    timestamp, whatever the range. *)
Lemma select_unstamped start end_ l :
  Exists (λ d, ServerTimestamp d = None) l →
  select start end_ l = Raises TypeError.
Proof.
  induction 1 as [d l Hd|d l _ IH]; simpl.
  - by rewrite Hd.
  - destruct (ServerTimestamp d); [|done]. by rewrite IH.
Qed.

(** Reading for a known node runs the comprehension on the stored list,
    whatever [nb_values] is, and changes nothing. *)
Lemma read_datavalues_known_node s node r start end_ nb_values :
  _datachanges s !! node = Some r →
  read_datavalues node start end_ nb_values s
  = (select start end_ (deref r s), s).
Proof.
  intros Hd. unfold read_datavalues. unfold_M. by rewrite Hd.
Qed.

Lemma read_datavalues_ignores_nb_values s node start end_ n n' :
  read_datavalues node start end_ n s = read_datavalues node start end_ n' s.
Proof. reflexivity. Qed.

(** On a list whose records all carry a server timestamp, the eviction
    loop stops at the latest on a record that is not older than the period,
    and keeps it. *)
Lemma evict_stops_at_fresh_record now p l dv t :
  Forall stamped l →
  ServerTimestamp dv = Some t →
  now - t ≤ p →
  ∃ kept,
    evict now p (l ++ [dv]) = (Returns tt, kept ++ [dv]) ∧
    kept `suffix_of` l.
Proof.
  intros Hl Ht Hfresh. induction Hl as [|d l [td Htd] _ IH]; simpl.
  - exists []. split; [|done]. rewrite Ht.
    destruct (now - t >? p) eqn:Hgt; [|done].
    apply Z.gtb_lt in Hgt. lia.
  - rewrite Htd. destruct (now - td >? p).
    + destruct IH as (kept & Hrun & Hsuf). exists kept. split; [done|].
      by apply suffix_cons_r.
    + exists (d :: l). split; [done|]. done.
Qed.

(** Whatever the stored records are, the loop does not run off the end of a
    list that ends with a record not older than the period: it returns, or
    it raises [TypeError] on a record without server timestamp. *)
Lemma evict_no_index_error now p l dv t :
  ServerTimestamp dv = Some t →
  now - t ≤ p →
  (evict now p (l ++ [dv])).1 = Returns tt ∨
  (evict now p (l ++ [dv])).1 = Raises TypeError.
Proof.
  intros Ht Hfresh. induction l as [|d l IH]; simpl.
  - rewrite Ht. destruct (now - t >? p) eqn:Hgt; [|by left].
    apply Z.gtb_lt in Hgt. lia.
  - destruct (ServerTimestamp d) as [td|]; [|by right].
    destruct (now - td >? p); [done|by left].
Qed.

(** The loop runs off the end of a list all of whose records are older
    than the period. *)
Lemma evict_all_stale now p l :
  Forall (stale now p) l →
  evict now p l = (Raises IndexError, []).
Proof.
  induction 1 as [|d l (t & Ht & Hd) _ IH]; simpl; [done|].
  rewrite Ht. destruct (now - t >? p) eqn:Hgt; [done|].
  rewrite Z.gtb_ltb in Hgt. apply Z.ltb_ge in Hgt. lia.
Qed.

End HistoryDict_facts.

(** C1 fails on the code: scenario A (a count of 3, no period, five values
    appended) reads back all five values, not the last three. The slice
    [data[-count:]] is bound to the local variable and dropped when the
    function returns. *)
Theorem scenario_A_returns_all_five :
  (scenario_A HistoryDict.__init__).1
  = Returns [dv_at 1 (seconds 1); dv_at 2 (seconds 2); dv_at 3 (seconds 3);
             dv_at 4 (seconds 4); dv_at 5 (seconds 5)].
Proof. vm_compute. reflexivity. Qed.

(** C5 fails on the code: with three records in range and [nb_values = 2]
    the backend hands the manager a bare list of all three records, neither
    capped nor paired with a flag; and the typed reader returns the same
    for every [nb_values]. *)
Theorem read_datavalues_uncapped_bare_list :
  read_datavalues 1%nat (seconds 1) (seconds 3) 2 three_records
  = (Returns (VList [VDataValue (dv_at 1 (seconds 1));
                     VDataValue (dv_at 2 (seconds 2));
                     VDataValue (dv_at 3 (seconds 3))]),
     three_records) ∧
  (HistoryDict.read_datavalues 1%nat (seconds 2) (seconds 2) 2 three_records).1
  = Returns [dv_at 2 (seconds 2)].
Proof. split; vm_compute; reflexivity. Qed.

(** C6 fails on the code for the append: on a backend that does not know
    node 1, [save_datavalue] raises [KeyError] (so does the notification
    handler that forwards to it), while [read_datavalues] returns the empty
    list. *)
Theorem unknown_node_append_raises :
  HistoryDict.save_datavalue 1%nat (dv_at 1 (seconds 1)) (seconds 1)
    HistoryDict.__init__
  = (Raises KeyError, HistoryDict.__init__) ∧
  datachange_notification 1%nat 1 (dv_at 1 (seconds 1)) (seconds 1)
    HistoryDict.__init__
  = (Raises KeyError, HistoryDict.__init__) ∧
  HistoryDict.read_datavalues 1%nat 0 (seconds 10) 0 HistoryDict.__init__
  = (Returns [], HistoryDict.__init__).
Proof. split; [reflexivity|]. split; reflexivity. Qed.

(** C10, as amended: for a node registered with a nonzero period [p] whose
    stored records all carry a server timestamp, appending a record whose
    server timestamp is at most [p] older than the clock returns without
    raising: the eviction loop, which terminates by recursion on the list,
    stops at the latest on the appended record, so the stored list ends
    with that record and [data[0]] is never read from an empty list. *)
Theorem save_datavalue_fresh_record_returns s node r p count dv t now :
  _datachanges s !! node = Some r →
  _datachanges_period s !! node = Some (Some p, count) →
  p ≠ 0 →
  Forall stamped (HistoryDict.deref r s) →
  ServerTimestamp dv = Some t →
  now - t ≤ p →
  ∃ s' kept,
    HistoryDict.save_datavalue node dv now s = (Returns tt, s') ∧
    HistoryDict.evict now p (HistoryDict.deref r s ++ [dv])
      = (Returns tt, kept ++ [dv]) ∧
    HistoryDict.deref r s' = kept ++ [dv] ∧
    kept `suffix_of` HistoryDict.deref r s.
Proof.
  intros Hd Hp Hp0 Hstamped Ht Hfresh.
  destruct (save_datavalue_stored s node r (Some p) count dv now Hd Hp)
    as (s' & Hrun & Hstored & _).
  destruct (evict_stops_at_fresh_record now p (HistoryDict.deref r s) dv t
              Hstamped Ht Hfresh) as (kept & Hev & Hsuf).
  unfold age_evicted in Hrun, Hstored.
  apply Z.eqb_neq in Hp0. rewrite Hp0 in Hrun, Hstored. simpl in Hrun, Hstored.
  rewrite Hev in Hrun, Hstored. simpl in Hrun, Hstored.
  exists s', kept. auto.
Qed.

Lemma save_datavalue_fresh_record_returns_witness :
  ∃ s' kept,
    HistoryDict.save_datavalue 1%nat (dv_at 3 (seconds 7000)) (seconds 7200)
      hourly_two_records = (Returns tt, s') ∧
    HistoryDict.evict (seconds 7200) (seconds 3600)
      (HistoryDict.deref 0%nat hourly_two_records ++ [dv_at 3 (seconds 7000)])
      = (Returns tt, kept ++ [dv_at 3 (seconds 7000)]) ∧
    HistoryDict.deref 0%nat s' = kept ++ [dv_at 3 (seconds 7000)] ∧
    kept `suffix_of` HistoryDict.deref 0%nat hourly_two_records.
Proof.
  apply (save_datavalue_fresh_record_returns hourly_two_records 1%nat 0%nat
           (seconds 3600) 1 (dv_at 3 (seconds 7000)) (seconds 7000)
           (seconds 7200)).
  - reflexivity.
  - reflexivity.
  - unfold seconds, usec_per_sec. lia.
  - change (HistoryDict.deref 0%nat hourly_two_records)
      with [dv_at 1 (seconds 1000); dv_at 2 (seconds 4000)].
    repeat constructor; by eexists.
  - reflexivity.
  - unfold seconds, usec_per_sec. lia.
Defined.

(** C10, as stated, fails: node 1 is registered with a period of one hour
    and the appended record is five seconds old, yet [save_datavalue]
    raises [TypeError], on the stored record without server timestamp that
    the loop reads first. *)
Lemma fresh_record_after_unstamped_raises :
  _datachanges hourly_unstamped !! 1%nat = Some 0%nat ∧
  _datachanges_period hourly_unstamped !! 1%nat
  = Some (Some (seconds 3600), 0) ∧
  HistoryDict.deref 0%nat hourly_unstamped = [dv_unstamped 1] ∧
  ServerTimestamp (dv_at 2 (seconds 5)) = Some (seconds 5) ∧
  seconds 10 - seconds 5 ≤ seconds 3600 ∧
  (HistoryDict.save_datavalue 1%nat (dv_at 2 (seconds 5)) (seconds 10)
     hourly_unstamped).1 = Raises TypeError.
Proof.
  split_and!; try reflexivity.
  unfold seconds, usec_per_sec. lia.
Qed.

(** Without the condition on the stored records, appending a record that is
    not older than the period still never reads [data[0]] from an empty
    list: the call returns, or raises [TypeError] on a stored record
    without server timestamp. *)
Lemma save_datavalue_fresh_record_no_index_error s node r p count dv t now :
  _datachanges s !! node = Some r →
  _datachanges_period s !! node = Some (Some p, count) →
  p ≠ 0 →
  ServerTimestamp dv = Some t →
  now - t ≤ p →
  (HistoryDict.save_datavalue node dv now s).1 = Returns tt ∨
  (HistoryDict.save_datavalue node dv now s).1 = Raises TypeError.
Proof.
  intros Hd Hp Hp0 Ht Hfresh.
  destruct (save_datavalue_stored s node r (Some p) count dv now Hd Hp)
    as (s' & Hrun & _).
  rewrite Hrun. unfold age_evicted.
  apply Z.eqb_neq in Hp0. rewrite Hp0. simpl.
  by apply (evict_no_index_error now p _ dv t).
Qed.

(** The unguarded edge of C10: a record that is itself older than the
    period, appended to a node without younger records, makes the loop read
    [data[0]] from the emptied list: [IndexError], and the list stays
    empty. *)
Lemma save_datavalue_stale_record_raises s node r p count dv now :
  _datachanges s !! node = Some r →
  _datachanges_period s !! node = Some (Some p, count) →
  p ≠ 0 →
  Forall (stale now p) (HistoryDict.deref r s ++ [dv]) →
  ∃ s',
    HistoryDict.save_datavalue node dv now s = (Raises IndexError, s') ∧
    HistoryDict.deref r s' = [].
Proof.
  intros Hd Hp Hp0 Hstale.
  destruct (save_datavalue_stored s node r (Some p) count dv now Hd Hp)
    as (s' & Hrun & Hstored & _).
  unfold age_evicted in Hrun, Hstored.
  apply Z.eqb_neq in Hp0. rewrite Hp0 in Hrun, Hstored. simpl in Hrun, Hstored.
  rewrite (evict_all_stale now p _ Hstale) in Hrun, Hstored.
  exists s'. auto.
Qed.

Example save_datavalue_stale_record_example :
  (HistoryDict.save_datavalue 1%nat (dv_at 1 (seconds 1)) (seconds 7200)
     hourly_node).1 = Raises IndexError.
Proof. vm_compute. reflexivity. Qed.

(** ** The manager *)

Section Manager_facts.
Context {S : Type} `{HistoryStorageInterface S}.

(** [results] stays a list object through a turn of the loop and receives
    a reference to itself. *)
Lemma update_history_step_results results h items d :
  h !! results = Some (OList items) →
  update_history_step results h d !! results
  = Some (OList (items ++ [results])).
Proof.
  intros Hr. unfold update_history_step.
  assert (Hne : fresh (dom h) ≠ results).
  { intros Heq. pose proof (is_fresh (dom h)) as Hf. rewrite Heq in Hf.
    apply Hf, elem_of_dom. eauto. }
  rewrite lookup_alter_eq, !lookup_insert_ne, Hr by done. reflexivity.
Qed.

Lemma update_history_loop_results results details : ∀ h items,
  h !! results = Some (OList items) →
  foldl (update_history_step results) h details !! results
  = Some (OList (items ++ replicate (length details) results)).
Proof.
  induction details as [|d details IH]; intros h items Hr; simpl.
  - by rewrite app_nil_r.
  - rewrite (IH _ (items ++ [results])).
    + by rewrite <- app_assoc.
    + by apply update_history_step_results.
Qed.

(** For every request, [update_history] leaves the manager and its storage
    as they were and returns a list with one item per request item, each
    item being the returned list itself. *)
Lemma update_history_returns_itself params (hm : HistoryManager S) :
  ∃ results h,
    update_history params hm = (Returns (results, h), hm) ∧
    h !! results
    = Some (OList (replicate (length (HistoryUpdateDetails params)) results)).
Proof.
  unfold update_history. unfold_M.
  eexists _, _. split; [reflexivity|].
  rewrite (update_history_loop_results _ _ _ []); [done|].
  apply lookup_singleton_eq.
Qed.

(** A raw or modified read through [_read_history] raises
    [AttributeError]: the class has no [_read_datavalue_history]. *)
Lemma _read_history_raw_raises py d rv (hm : HistoryManager S) :
  _read_history py (RawModified d) rv hm = (Raises AttributeError, hm).
Proof. unfold _read_history. destruct (IsReadModified d); reflexivity. Qed.

Lemma read_history_raw_raises py d rv nodes (hm : HistoryManager S) :
  read_history py (mkHistoryReadParameters (RawModified d) (rv :: nodes)) hm
  = (Raises AttributeError, hm).
Proof.
  unfold read_history.
  cbn [HistoryReadDetails_ NodesToRead read_history_loop].
  unfold mbind, M_bind. by rewrite _read_history_raw_raises.
Qed.

(** What [read_datavalue_history] does with a backend that returns a pair
    whose second component is false: the pair is passed on. *)
Lemma read_datavalue_history_complete py rv d start dv cont st'
  (hm : HistoryManager S) :
  (ContinuationPoint rv = [] ∧ start = StartTime d) ∨
  (ContinuationPoint rv ≠ [] ∧
   bytes_to_datetime (ContinuationPoint rv) = Returns start) →
  read_datavalues (RvNodeId rv) start (EndTime d) (NumValuesPerNode d)
    (storage hm) = (Returns (VTuple [dv; cont]), st') →
  truthy cont = false →
  read_datavalue_history py rv d hm
  = (Returns (dv, cont),
     {| storage := st'; _sub := _sub hm; _handlers := _handlers hm |}).
Proof.
  intros Hstart Hread Hcont. unfold read_datavalue_history. unfold_M.
  destruct Hstart as [[Hcp ->] | [Hcp Hdec]].
  - rewrite Hcp. unfold on_storage. rewrite Hread. simpl.
    by rewrite Hcont.
  - destruct (ContinuationPoint rv) as [|b cp]; [done|].
    rewrite Hdec. unfold on_storage. rewrite Hread. simpl.
    by rewrite Hcont.
Qed.

(** With a backend that returns a non-empty list and a true second
    component, the call raises [AttributeError]: line 185 reads the
    attribute [SourceTimeStamp] of the last item, which a data value does
    not have, so that no continuation point is ever built. *)
Lemma read_datavalue_history_truncated py rv d start items x cont st'
  (hm : HistoryManager S) :
  (ContinuationPoint rv = [] ∧ start = StartTime d) ∨
  (ContinuationPoint rv ≠ [] ∧
   bytes_to_datetime (ContinuationPoint rv) = Returns start) →
  read_datavalues (RvNodeId rv) start (EndTime d) (NumValuesPerNode d)
    (storage hm)
  = (Returns (VTuple [VList (items ++ [x]); cont]), st') →
  truthy cont = true →
  read_datavalue_history py rv d hm
  = (Raises AttributeError,
     {| storage := st'; _sub := _sub hm; _handlers := _handlers hm |}).
Proof.
  intros Hstart Hread Hcont. unfold read_datavalue_history. unfold_M.
  assert (Hlast : index_last (VList (items ++ [x])) = Returns x).
  { unfold index_last. by rewrite last_snoc. }
  destruct Hstart as [[Hcp ->] | [Hcp Hdec]].
  - rewrite Hcp. unfold on_storage. rewrite Hread. simpl unpack2. cbv iota beta.
    rewrite Hcont, Hlast. reflexivity.
  - destruct (ContinuationPoint rv) as [|b cp]; [done|].
    rewrite Hdec. unfold on_storage. rewrite Hread. simpl unpack2. cbv iota beta.
    rewrite Hcont, Hlast. reflexivity.
Qed.

(** Dehistorizing a node without a handler raises a lookup error of the
    interpreter and changes nothing. *)
Lemma dehistorize_not_historized node (hm : HistoryManager S) :
  _handlers hm !! node = None →
  ∃ e, dehistorize node hm = (Raises e, hm) ∧
       (e = AttributeError ∨ e = KeyError).
Proof.
  intros Hn. unfold dehistorize. unfold_M.
  destruct (_sub hm) as [sub|]; [|eauto].
  unfold HistoryDict.getitem. rewrite Hn. eauto.
Qed.

Lemma dehistorize_historized node sub h (hm : HistoryManager S) :
  _sub hm = Some sub →
  _handlers hm !! node = Some h →
  dehistorize node hm
  = (Returns tt,
     {| storage := storage hm;
        _sub := Some (Subscription.unsubscribe h sub).2;
        _handlers := delete node (_handlers hm) |}).
Proof.
  intros Hs Hh. unfold dehistorize. unfold_M.
  rewrite Hs. unfold HistoryDict.getitem. rewrite Hh. reflexivity.
Qed.

(** C8, as amended: for every backend, a read whose continuation point is
    neither empty nor four bytes long raises the decoding error
    ([struct.error]) before the backend is queried, and leaves the manager
    as it was. *)
Theorem read_datavalue_history_bad_token py rv d (hm : HistoryManager S) :
  ContinuationPoint rv ≠ [] →
  length (ContinuationPoint rv) ≠ 4%nat →
  read_datavalue_history py rv d hm = (Raises StructError, hm).
Proof.
  intros Hne Hlen. unfold read_datavalue_history. unfold_M.
  destruct (ContinuationPoint rv) as [|b cp] eqn:Hcp; [done|].
  rewrite bytes_to_datetime_wrong_length by done. reflexivity.
Qed.

(** C9, as amended: dehistorizing a historized node returns; it
    unsubscribes the handle of the node from the subscription (the handle is
    monitored no longer, the other handles are as before), drops the
    handler of the node and leaves the storage backend untouched, so that a
    value query for the node gives after it what it gave before. *)
Theorem dehistorize_leaves_storage node sub h (hm : HistoryManager S) :
  _sub hm = Some sub →
  _handlers hm !! node = Some h →
  ∃ hm' sub',
    dehistorize node hm = (Returns tt, hm') ∧
    _sub hm' = Some sub' ∧
    sub' = (Subscription.unsubscribe h sub).2 ∧
    monitored sub' !! h = None ∧
    (∀ h', h' ≠ h → monitored sub' !! h' = monitored sub !! h') ∧
    _handlers hm' !! node = None ∧
    storage hm' = storage hm ∧
    ∀ start end_ nb_values,
      read_datavalues node start end_ nb_values (storage hm')
      = read_datavalues node start end_ nb_values (storage hm).
Proof.
  intros Hs Hh. eexists _, _. split; [by apply dehistorize_historized|].
  cbn [storage _sub _handlers]. split_and!; try done.
  - simpl. apply lookup_delete_eq.
  - intros h' Hne. simpl. by apply lookup_delete_ne.
  - apply lookup_delete_eq.
Qed.

End Manager_facts.

(** On the default backend [read_datavalue_history] never returns: the
    backend hands it a list, which unpacks into two names only when it has
    exactly two items, and then the first item, a data value, cannot be
    indexed. *)
Lemma read_datavalue_history_default_backend_raises py rv d
  (hm : HistoryManager HistoryDict) :
  ∃ e, (read_datavalue_history py rv d hm).1 = Raises e.
Proof.
  unfold read_datavalue_history. unfold_M.
  set (start := match ContinuationPoint rv with [] => _ | _ => _ end).
  destruct (start hm) as [[t|e] hm1] eqn:Hstart; [|eauto].
  unfold on_storage. simpl. unfold_M.
  destruct (HistoryDict.read_datavalues _ _ _ _ _) as [[l|e] st] eqn:Hread;
    [|simpl; eauto].
  simpl.
  destruct l as [|a [|b [|c l]]]; simpl; eauto.
Qed.

(** C2 fails on the code: in scenario E (five eligible records, two values
    per node, no continuation point) the read through [_read_history]
    raises [AttributeError] under either interpreter, and a direct call of
    [read_datavalue_history] raises [ValueError] when it unpacks the list of
    five records the default backend returns; no page and no continuation
    point is produced. *)
Theorem scenario_E_read_raises :
  (HistoryDict.read_datavalues 1%nat 0 (seconds 10) 2
     (storage manager_with_five_records)).1
  = Returns [dv_at 1 (seconds 1); dv_at 2 (seconds 2); dv_at 3 (seconds 3);
             dv_at 4 (seconds 4); dv_at 5 (seconds 5)] ∧
  _read_history Python2 (RawModified scenario_E_details)
    (mkHistoryReadValueId 1%nat []) manager_with_five_records
  = (Raises AttributeError, manager_with_five_records) ∧
  _read_history Python3 (RawModified scenario_E_details)
    (mkHistoryReadValueId 1%nat []) manager_with_five_records
  = (Raises AttributeError, manager_with_five_records) ∧
  read_datavalue_history Python2 (mkHistoryReadValueId 1%nat [])
    scenario_E_details manager_with_five_records
  = (Raises ValueError, manager_with_five_records).
Proof.
  split; [vm_compute; reflexivity|].
  split; [reflexivity|]. split; [reflexivity|].
  vm_compute. reflexivity.
Qed.

(** C3 fails on the code: for a request of three items the call returns a
    list of three items and leaves the manager unchanged, but each item is
    the returned list itself ([results.append(results)]), not a result
    object with status [BadNotWritable]. *)
Theorem update_history_three_items :
  ∃ results h,
    update_history (mkHistoryUpdateParameters [1; 2; 3])
      manager_with_one_record
    = (Returns (results, h), manager_with_one_record) ∧
    h !! results = Some (OList [results; results; results]) ∧
    ∀ item, item ∈ [results; results; results] →
            h !! item ≠ Some (OHistoryUpdateResult BadNotWritable).
Proof.
  destruct (update_history_returns_itself
              (mkHistoryUpdateParameters [1; 2; 3]) manager_with_one_record)
    as (results & h & Hrun & Hlist).
  simpl in Hlist. exists results, h. split; [done|]. split; [done|].
  intros item Hitem.
  assert (item = results) as ->.
  { apply list_elem_of_In in Hitem. simpl in Hitem.
    destruct Hitem as [<-|[<-|[<-|[]]]]; reflexivity. }
  rewrite Hlist. discriminate.
Qed.

(** C4 fails on the code: dehistorizing a node that was never historized
    raises [AttributeError] on a new manager (there is no subscription yet)
    and [KeyError] on a manager that historizes another node, in both cases
    without any change of state; the error [historize] raises after its
    membership check, [UaError], is raised in neither case. *)
Theorem dehistorize_unknown_node_raises :
  dehistorize 1%nat HistoryManager__init__
  = (Raises AttributeError, HistoryManager__init__) ∧
  dehistorize 2%nat manager_with_one_record
  = (Raises KeyError, manager_with_one_record) ∧
  (historize 1%nat None 0 manager_with_one_record).1 = Raises UaError.
Proof.
  split; [reflexivity|]. split; vm_compute; reflexivity.
Qed.

(** C8, as stated, fails: a read with a one-byte continuation point does
    not return, it raises [struct.error]; a read of the same request
    without continuation point behaves otherwise. *)
Lemma bad_token_aborts_read :
  (¬ ∃ dv cont hm',
       read_datavalue_history Python2
         (mkHistoryReadValueId 1%nat [Byte.x01]) scenario_E_details
         manager_with_five_records
       = (Returns (dv, cont), hm')) ∧
  read_datavalue_history Python2
    (mkHistoryReadValueId 1%nat [Byte.x01]) scenario_E_details
    manager_with_five_records
  ≠ read_datavalue_history Python2
      (mkHistoryReadValueId 1%nat []) scenario_E_details
      manager_with_five_records.
Proof.
  split.
  - intros (dv & cont & hm' & Hrun). vm_compute in Hrun. discriminate.
  - intros Heq. vm_compute in Heq. discriminate.
Qed.

Lemma read_datavalue_history_bad_token_witness :
  read_datavalue_history Python2
    (mkHistoryReadValueId 1%nat [Byte.x01]) scenario_E_details
    manager_with_five_records
  = (Raises StructError, manager_with_five_records).
Proof.
  apply (read_datavalue_history_bad_token Python2
           (mkHistoryReadValueId 1%nat [Byte.x01]) scenario_E_details
           manager_with_five_records).
  - simpl. discriminate.
  - simpl. lia.
Defined.

(** C9, as stated, fails: after node 1 is dehistorized, the value query of
    the in-memory backend still returns the record captured before. *)
Lemma dehistorize_keeps_records :
  ((dehistorize 1%nat;;
    on_storage (HistoryDict.read_datavalues 1%nat 0 (seconds 10) 0))
     manager_with_one_record).1
  = Returns [dv_at 7 (seconds 1)] ∧
  ((dehistorize 1%nat;;
    on_storage (HistoryDict.read_datavalues 1%nat 0 (seconds 10) 0))
     manager_with_one_record).1
  ≠ Returns [].
Proof.
  split.
  - vm_compute. reflexivity.
  - intros Heq. vm_compute in Heq. discriminate.
Qed.

Lemma dehistorize_leaves_storage_witness :
  ∃ hm' sub',
    dehistorize 1%nat manager_with_one_record = (Returns tt, hm') ∧
    _sub hm' = Some sub' ∧
    sub' = (Subscription.unsubscribe 1%nat
              (Subscription.subscribe_data_change 1%nat
                 Subscription.create).2).2 ∧
    monitored sub' !! 1%nat = None ∧
    (∀ h', h' ≠ 1%nat →
           monitored sub' !! h'
           = monitored (Subscription.subscribe_data_change 1%nat
                          Subscription.create).2 !! h') ∧
    _handlers hm' !! 1%nat = None ∧
    storage hm' = storage manager_with_one_record ∧
    ∀ start end_ nb_values,
      read_datavalues 1%nat start end_ nb_values (storage hm')
      = read_datavalues 1%nat start end_ nb_values
          (storage manager_with_one_record).
Proof.
  apply (dehistorize_leaves_storage 1%nat
           (Subscription.subscribe_data_change 1%nat Subscription.create).2
           1%nat manager_with_one_record).
  - reflexivity.
  - reflexivity.
Defined.

(** ** More on the in-memory backend *)

Section HistoryDict_invariants.
Import HistoryDict.
(** [new_node] always returns; it binds the node to a new, empty list. *)
Lemma new_node_run node period count s :
  new_node node period count s
  = (Returns tt,
     {| _datachanges := <[node := fresh (dom (objects s))]> (_datachanges s);
        _datachanges_period := <[node := (period, count)]> (_datachanges_period s);
        _events := _events s;
        objects := <[fresh (dom (objects s)) := []]> (objects s) |}).
Proof. reflexivity. Qed.

(** A new list object is none of the existing ones. *)
Lemma fresh_not_object (m : gmap loc (list DataValue)) (r : loc) :
  is_Some (m !! r) → fresh (dom m) ≠ r.
Proof.
  intros Hr Heq. pose proof (is_fresh (dom m)) as Hf.
  rewrite Heq in Hf. by apply Hf, elem_of_dom.
Qed.

Lemma consistent_init : consistent __init__.
Proof.
  unfold consistent, __init__. simpl. split_and!.
  - intros node. by rewrite !lookup_empty.
  - intros node r. by rewrite lookup_empty.
  - intros n1 n2 r. by rewrite lookup_empty.
Qed.

Lemma consistent_new_node node period count s :
  consistent s → consistent (new_node node period count s).2.
Proof.
  intros (Hdom & Hval & Hinj). rewrite new_node_run. simpl.
  unfold consistent. simpl. split_and!.
  - intros n. destruct (decide (node = n)) as [->|Hne].
    + rewrite !lookup_insert_eq. split; eauto.
    + rewrite !lookup_insert_ne by done. apply Hdom.
  - intros n r. destruct (decide (node = n)) as [->|Hne].
    + rewrite lookup_insert_eq. intros [= <-]. rewrite lookup_insert_eq. eauto.
    + rewrite lookup_insert_ne by done. intros Hn.
      pose proof (Hval _ _ Hn) as Hr.
      rewrite lookup_insert_ne; [done|]. by apply fresh_not_object.
  - intros n1 n2 r.
    destruct (decide (node = n1)) as [->|Hne1];
      destruct (decide (n1 = n2)) as [->|Hne2]; try done.
    + rewrite lookup_insert_eq, lookup_insert_ne by done.
      intros [= <-] Hn2. apply Hval in Hn2.
      by apply fresh_not_object in Hn2.
    + destruct (decide (node = n2)) as [->|Hne3].
      * rewrite lookup_insert_eq, lookup_insert_ne by done.
        intros Hn1 [= <-]. apply Hval in Hn1.
        by apply fresh_not_object in Hn1.
      * rewrite !lookup_insert_ne by done. intros H1 H2.
        destruct Hne2. eapply Hinj; eauto.
Qed.

(** [save_datavalue] changes neither dictionary, and no list object other
    than the one of its node. *)
Lemma save_datavalue_frame s node dv now :
  _datachanges (save_datavalue node dv now s).2 = _datachanges s ∧
  _datachanges_period (save_datavalue node dv now s).2 = _datachanges_period s ∧
  _events (save_datavalue node dv now s).2 = _events s ∧
  ∀ r', is_Some (objects s !! r') →
        is_Some (objects (save_datavalue node dv now s).2 !! r') ∧
        (_datachanges s !! node ≠ Some r' →
         objects (save_datavalue node dv now s).2 !! r' = objects s !! r').
Proof.
  unfold save_datavalue, save_datavalue_body. unfold_M. unfold getitem.
  destruct (_datachanges s !! node) as [r|] eqn:Hd; [|by simpl].
  destruct (_datachanges_period s !! node) as [[period count]|] eqn:Hp;
    [|by simpl].
  unfold on_list, append, len, slice_from, alloc. simpl.
  destruct period as [p|]; [destruct (negb (p =? 0))|]; simpl;
    rewrite ?deref_store_eq;
    try (destruct (evict now p (deref r s ++ [dv])) as [[[]|e] l']; simpl);
    rewrite ?deref_store_eq;
    try (destruct (negb (count =? 0) && _); simpl);
    (split_and!; [done..|]);
    intros r' Hr';
    (assert (Hfr : ∀ m : gmap loc (list DataValue),
               is_Some (m !! r') → fresh (dom m) ≠ r')
       by (intros m; apply fresh_not_object));
    (split; [|intros Hne; assert (r ≠ r') by congruence]).
  all: try (repeat (apply lookup_insert_is_Some'; right); done).
  all: repeat (rewrite lookup_insert_ne;
               [| first [done
                        | apply Hfr;
                          repeat (apply lookup_insert_is_Some'; right); done]]);
       done.
Qed.

Lemma consistent_save_datavalue node dv now s :
  consistent s → consistent (save_datavalue node dv now s).2.
Proof.
  intros (Hdom & Hval & Hinj).
  destruct (save_datavalue_frame s node dv now) as (Hd & Hp & _ & Hobj).
  unfold consistent. rewrite Hd, Hp. split_and!; [done| |done].
  intros n r Hn. apply Hobj. by eapply Hval.
Qed.

Lemma consistent_after_call s c : consistent s → consistent (after_call s c).
Proof.
  intros Hs. destruct c; simpl; try done.
  - by apply consistent_new_node.
  - by apply consistent_save_datavalue.
  - unfold read_datavalues. unfold_M. by destruct (_datachanges s !! node).
Qed.

(** X1: whatever sequence of calls a new backend receives, and whether they
    return or raise, its dictionaries stay consistent: the nodes with a list
    are the nodes with a period and count, every list reference is live, and
    no two nodes share a list. *)
Theorem backend_always_consistent (calls : list storage_call) :
  consistent (after_calls calls).
Proof.
  unfold after_calls. generalize consistent_init.
  generalize __init__ as s. induction calls as [|c calls IH]; intros s Hs; simpl.
  - done.
  - apply IH. by apply consistent_after_call.
Qed.

End HistoryDict_invariants.

(** ** Eviction, order and ranges in the in-memory backend *)

Section HistoryDict_more.
Import HistoryDict.

(** The eviction loop splits the list into the records it pops, all
    carrying a server timestamp older than the period, and the rest. The
    rest starts with a record that is not older than the period when the
    loop returns, is empty when the loop raises [IndexError], and starts
    with a record without server timestamp when it raises [TypeError]. *)
Lemma evict_decompose now p l :
  ∃ dropped,
    l = dropped ++ (evict now p l).2 ∧
    Forall (stale now p) dropped ∧
    match (evict now p l).1 with
    | Returns _ =>
        ∃ d t rest, (evict now p l).2 = d :: rest ∧
                    ServerTimestamp d = Some t ∧ now - t ≤ p
    | Raises e =>
        (e = IndexError ∧ (evict now p l).2 = []) ∨
        (e = TypeError ∧
         ∃ d rest, (evict now p l).2 = d :: rest ∧ ServerTimestamp d = None)
    end.
Proof.
  induction l as [|d l IH]; simpl.
  - exists []. split_and!; [done|constructor|by left].
  - destruct (ServerTimestamp d) as [t|] eqn:Ht.
    + destruct (now - t >? p) eqn:Hgt.
      * destruct IH as (dropped & Hl & Hstale & Hhead).
        exists (d :: dropped). split_and!.
        -- simpl. by f_equal.
        -- constructor; [|done]. exists t. split; [done|].
           apply Z.gtb_lt in Hgt. lia.
        -- done.
      * exists []. split_and!; [done|constructor|].
        simpl. exists d, t, l. split_and!; [done..|].
        rewrite Z.gtb_ltb in Hgt. apply Z.ltb_ge in Hgt. lia.
    + exists []. split_and!; [done|constructor|].
      simpl. right. split; [done|]. by exists d, l.
Qed.

Lemma age_evicted_decompose period now l :
  ∃ dropped,
    l = dropped ++ (age_evicted period now l).2 ∧
    Forall (λ d, ∃ p, period = Some p ∧ p ≠ 0 ∧ stale now p d) dropped.
Proof.
  unfold age_evicted. destruct period as [p|].
  - destruct (negb (p =? 0)) eqn:Hp0.
    + destruct (evict_decompose now p l) as (dropped & Hl & Hstale & _).
      exists dropped. split; [done|].
      eapply Forall_impl; [exact Hstale|]. intros d Hd. simpl in Hd.
      exists p. split_and!; [done| |done].
      apply negb_true_iff, Z.eqb_neq in Hp0. done.
    + exists []. by split.
  - exists []. by split.
Qed.

(** The records of [hourly_two_records], and what is stored after a third
    record, saved at 7000 s, is appended at 7200 s: the record saved at
    1000 s, then older than an hour, is gone; two records stay although the
    count of the node is 1. *)
Lemma hourly_two_records_stored :
  deref 0%nat hourly_two_records
  = [dv_at 1 (seconds 1000); dv_at 2 (seconds 4000)] ∧
  deref 0%nat
    (save_datavalue 1%nat (dv_at 3 (seconds 7000)) (seconds 7200)
       hourly_two_records).2
  = [dv_at 2 (seconds 4000); dv_at 3 (seconds 7000)].
Proof. split; vm_compute; reflexivity. Qed.

Lemma three_stamps_ascending (a b c : DataValue) ta tb tc :
  ServerTimestamp a = Some ta → ServerTimestamp b = Some tb →
  ServerTimestamp c = Some tc → ta ≤ tb → tb ≤ tc →
  ascending [a; b; c].
Proof.
  intros Ha Hb Hc Hab Hbc. split.
  - repeat constructor; unfold stamped; eauto.
  - repeat constructor; intros x y Hx Hy; simplify_eq; lia.
Qed.

(** X2: [save_datavalue] on a registered node only ever discards records from
    the front of the list that carry a server timestamp older than the
    period of the node; with no period it discards nothing, and the count
    never discards anything. *)
Theorem save_datavalue_drops_only_stale s node r period count dv now :
  _datachanges s !! node = Some r →
  _datachanges_period s !! node = Some (period, count) →
  ∃ dropped,
    deref r s ++ [dv]
    = dropped ++ deref r (save_datavalue node dv now s).2 ∧
    Forall (λ d, ∃ p, period = Some p ∧ p ≠ 0 ∧ stale now p d) dropped.
Proof.
  intros Hd Hp.
  destruct (save_datavalue_stored s node r period count dv now Hd Hp)
    as (s' & Hrun & Hstored & _).
  rewrite Hrun. simpl. rewrite Hstored. apply age_evicted_decompose.
Qed.

Lemma save_datavalue_drops_only_stale_witness :
  (deref 0%nat hourly_two_records
   = [dv_at 1 (seconds 1000); dv_at 2 (seconds 4000)] ∧
   deref 0%nat
     (save_datavalue 1%nat (dv_at 3 (seconds 7000)) (seconds 7200)
        hourly_two_records).2
   = [dv_at 2 (seconds 4000); dv_at 3 (seconds 7000)]) ∧
  ∃ dropped,
    deref 0%nat hourly_two_records ++ [dv_at 3 (seconds 7000)]
    = dropped ++ deref 0%nat
        (save_datavalue 1%nat (dv_at 3 (seconds 7000)) (seconds 7200)
           hourly_two_records).2 ∧
    Forall (λ d, ∃ p, Some (seconds 3600) = Some p ∧ p ≠ 0 ∧
                      stale (seconds 7200) p d) dropped.
Proof.
  split; [exact hourly_two_records_stored|].
  apply (save_datavalue_drops_only_stale hourly_two_records 1%nat 0%nat
           (Some (seconds 3600)) 1 (dv_at 3 (seconds 7000)) (seconds 7200)).
  - reflexivity.
  - reflexivity.
Defined.

(** X3: when the stored records followed by the new one all carry a server
    timestamp and are in ascending order of it, the list stored after
    [save_datavalue] is so too, whether the call returns or raises. *)
Theorem save_datavalue_keeps_ascending s node r period count dv now :
  _datachanges s !! node = Some r →
  _datachanges_period s !! node = Some (period, count) →
  ascending (deref r s ++ [dv]) →
  ascending (deref r (save_datavalue node dv now s).2).
Proof.
  intros Hd Hp Hasc.
  destruct (save_datavalue_stored s node r period count dv now Hd Hp)
    as (s' & Hrun & Hstored & _).
  rewrite Hrun. simpl. rewrite Hstored.
  destruct (age_evicted_decompose period now (deref r s ++ [dv]))
    as (dropped & Hl & _).
  rewrite Hl in Hasc. destruct Hasc as [Hst Hsorted]. split.
  - by apply Forall_app in Hst as [_ Hst].
  - by apply StronglySorted_app_1_r in Hsorted.
Qed.

Lemma save_datavalue_keeps_ascending_witness :
  ascending
    (deref 0%nat
       (save_datavalue 1%nat (dv_at 3 (seconds 7000)) (seconds 7200)
          hourly_two_records).2).
Proof.
  apply (save_datavalue_keeps_ascending hourly_two_records 1%nat 0%nat
           (Some (seconds 3600)) 1 (dv_at 3 (seconds 7000)) (seconds 7200)).
  - reflexivity.
  - reflexivity.
  - change (deref 0%nat hourly_two_records ++ [dv_at 3 (seconds 7000)])
      with [dv_at 1 (seconds 1000); dv_at 2 (seconds 4000);
            dv_at 3 (seconds 7000)].
    apply (three_stamps_ascending _ _ _ (seconds 1000) (seconds 4000)
             (seconds 7000));
      first [reflexivity | unfold seconds, usec_per_sec; lia].
Defined.

(** X4: for a node with a nonzero period [p] whose records all carry a
    server timestamp and arrive in ascending order of it, every record
    stored after [save_datavalue] is at most [p] old at the time of the
    call. *)
Theorem save_datavalue_age_bound s node r p count dv now :
  _datachanges s !! node = Some r →
  _datachanges_period s !! node = Some (Some p, count) →
  p ≠ 0 →
  ascending (deref r s ++ [dv]) →
  Forall (λ d, ∃ t, ServerTimestamp d = Some t ∧ now - t ≤ p)
         (deref r (save_datavalue node dv now s).2).
Proof.
  intros Hd Hp Hp0 Hasc.
  destruct (save_datavalue_stored s node r (Some p) count dv now Hd Hp)
    as (s' & Hrun & Hstored & _).
  rewrite Hrun. simpl. rewrite Hstored.
  unfold age_evicted. apply Z.eqb_neq in Hp0. rewrite Hp0. simpl.
  destruct (evict_decompose now p (deref r s ++ [dv]))
    as (dropped & Hl & _ & Hhead).
  rewrite Hl in Hasc. destruct Hasc as [Hst Hsorted].
  apply Forall_app in Hst as [_ Hst].
  apply StronglySorted_app_1_r in Hsorted.
  destruct (evict now p (deref r s ++ [dv])) as [[[]|e] kept]; simpl in *.
  - destruct Hhead as (d & t & rest & -> & Ht & Hfresh).
    apply StronglySorted_inv in Hsorted as [_ Hle].
    apply Forall_cons in Hst as [_ Hst].
    constructor; [by exists t|].
    apply Forall_forall. intros x Hx.
    rewrite Forall_forall in Hst, Hle.
    destruct (Hst x Hx) as [tx Htx]. exists tx. split; [done|].
    specialize (Hle x Hx t tx Ht Htx). lia.
  - destruct Hhead as [[_ ->]|[_ (d & rest & -> & Hnone)]]; [constructor|].
    apply Forall_cons in Hst as [[t Ht] _]. congruence.
Qed.

Lemma save_datavalue_age_bound_witness :
  Forall (λ d, ∃ t, ServerTimestamp d = Some t ∧
                    seconds 7200 - t ≤ seconds 3600)
    (deref 0%nat
       (save_datavalue 1%nat (dv_at 3 (seconds 7000)) (seconds 7200)
          hourly_two_records).2).
Proof.
  apply (save_datavalue_age_bound hourly_two_records 1%nat 0%nat
           (seconds 3600) 1 (dv_at 3 (seconds 7000)) (seconds 7200)).
  - reflexivity.
  - reflexivity.
  - unfold seconds, usec_per_sec. lia.
  - change (deref 0%nat hourly_two_records ++ [dv_at 3 (seconds 7000)])
      with [dv_at 1 (seconds 1000); dv_at 2 (seconds 4000);
            dv_at 3 (seconds 7000)].
    apply (three_stamps_ascending _ _ _ (seconds 1000) (seconds 4000)
             (seconds 7000));
      first [reflexivity | unfold seconds, usec_per_sec; lia].
Defined.

End HistoryDict_more.

(** ** Registration and reads in the in-memory backend *)

Section HistoryDict_reads.
Import HistoryDict.

Lemma hourly_node_consistent : consistent hourly_node.
Proof. apply consistent_new_node, consistent_init. Qed.

(** What [read_datavalues] returns, as a function of the state. *)
Lemma read_datavalues_run node start end_ nb_values s :
  read_datavalues node start end_ nb_values s
  = (match _datachanges s !! node with
     | Some r => select start end_ (deref r s)
     | None => Returns []
     end, s).
Proof.
  unfold read_datavalues. unfold_M. by destruct (_datachanges s !! node).
Qed.

(** X5: registering a node, known or not, always returns; the node then has
    the given period and count and no stored record, so that a read of any
    range returns the empty list: registering again discards the history. *)
Theorem new_node_resets_history s node period count start end_ nb_values :
  (new_node node period count s).1 = Returns tt ∧
  _datachanges_period (new_node node period count s).2 !! node
  = Some (period, count) ∧
  (read_datavalues node start end_ nb_values
     (new_node node period count s).2).1 = Returns [].
Proof.
  rewrite read_datavalues_run, new_node_run. simpl.
  rewrite !lookup_insert_eq. unfold deref. simpl.
  rewrite lookup_insert_eq. by split_and!.
Qed.

(** X6: on a consistent backend, registering a node changes neither the
    period and count nor the result of any read of another node. *)
Theorem new_node_keeps_other_nodes s node node' period count start end_ nb :
  consistent s →
  node' ≠ node →
  _datachanges_period (new_node node period count s).2 !! node'
  = _datachanges_period s !! node' ∧
  (read_datavalues node' start end_ nb (new_node node period count s).2).1
  = (read_datavalues node' start end_ nb s).1.
Proof.
  intros (_ & Hval & _) Hne.
  rewrite !read_datavalues_run, new_node_run. simpl.
  rewrite !lookup_insert_ne by done. split; [done|].
  destruct (_datachanges s !! node') as [r'|] eqn:Hn'; [|done].
  unfold deref. simpl. rewrite lookup_insert_ne; [done|].
  apply fresh_not_object. by eapply Hval.
Qed.

Lemma new_node_keeps_other_nodes_witness :
  _datachanges_period (new_node 2%nat None 5 hourly_node).2 !! 1%nat
  = _datachanges_period hourly_node !! 1%nat ∧
  (read_datavalues 1%nat 0 (seconds 10) 0
     (new_node 2%nat None 5 hourly_node).2).1
  = (read_datavalues 1%nat 0 (seconds 10) 0 hourly_node).1.
Proof.
  apply (new_node_keeps_other_nodes hourly_node 2%nat 1%nat None 5
           0 (seconds 10) 0).
  - exact hourly_node_consistent.
  - discriminate.
Defined.

(** X7: on a consistent backend, saving a value for a node, whether the call
    returns or raises, changes the result of no read of another node. *)
Theorem save_datavalue_keeps_other_nodes s node node' dv now start end_ nb :
  consistent s →
  node' ≠ node →
  (read_datavalues node' start end_ nb (save_datavalue node dv now s).2).1
  = (read_datavalues node' start end_ nb s).1.
Proof.
  intros (_ & Hval & Hinj) Hne.
  destruct (save_datavalue_frame s node dv now) as (Hd & _ & _ & Hobj).
  rewrite !read_datavalues_run. simpl. rewrite Hd.
  destruct (_datachanges s !! node') as [r'|] eqn:Hn'; [|done].
  unfold deref. destruct (Hobj r') as [_ Hsame]; [by eapply Hval|].
  rewrite Hsame; [done|].
  intros Hn. apply Hne. by eapply Hinj.
Qed.

Lemma save_datavalue_keeps_other_nodes_witness :
  (read_datavalues 1%nat 0 (seconds 10) 0
     (save_datavalue 2%nat (dv_at 1 (seconds 5)) (seconds 10)
        (new_node 2%nat None 0 hourly_node).2).2).1
  = (read_datavalues 1%nat 0 (seconds 10) 0
       (new_node 2%nat None 0 hourly_node).2).1.
Proof.
  apply (save_datavalue_keeps_other_nodes (new_node 2%nat None 0 hourly_node).2
           2%nat 1%nat (dv_at 1 (seconds 5)) (seconds 10) 0 (seconds 10) 0).
  - apply consistent_new_node, hourly_node_consistent.
  - discriminate.
Defined.

Lemma three_records_stored :
  deref 0%nat three_records
  = [dv_at 1 (seconds 1); dv_at 2 (seconds 2); dv_at 3 (seconds 3)].
Proof. reflexivity. Qed.

Lemma three_records_stamped : Forall stamped (deref 0%nat three_records).
Proof.
  rewrite three_records_stored. repeat constructor; unfold stamped; eauto.
Qed.

(** X8: for a known node whose stored records all carry a server timestamp,
    a read returns and does not change the backend; every record it returns
    has its server timestamp in the closed range, the records come in
    stored order (as a sublist of the stored list), and every stored record
    whose server timestamp is in the range is returned, whatever
    [nb_values] is. *)
Theorem read_datavalues_sound_complete s node r start end_ nb_values :
  _datachanges s !! node = Some r →
  Forall stamped (deref r s) →
  ∃ l,
    read_datavalues node start end_ nb_values s = (Returns l, s) ∧
    Forall (in_range start end_) l ∧
    l `sublist_of` deref r s ∧
    ∀ d, d ∈ deref r s → in_range start end_ d → d ∈ l.
Proof.
  intros Hd Hst. rewrite read_datavalues_run, Hd, select_stamped by done.
  eexists. split; [reflexivity|]. split_and!.
  - apply Forall_forall. intros d Hin.
    by apply list_elem_of_filter in Hin as [Hin _].
  - apply sublist_filter.
  - intros d Hin Hrange. by apply list_elem_of_filter.
Qed.

Lemma read_datavalues_sound_complete_witness :
  ∃ l,
    read_datavalues 1%nat (seconds 2) (seconds 3) 1 three_records
    = (Returns l, three_records) ∧
    Forall (in_range (seconds 2) (seconds 3)) l ∧
    l `sublist_of` deref 0%nat three_records ∧
    ∀ d, d ∈ deref 0%nat three_records →
         in_range (seconds 2) (seconds 3) d → d ∈ l.
Proof.
  apply (read_datavalues_sound_complete three_records 1%nat 0%nat
           (seconds 2) (seconds 3) 1).
  - reflexivity.
  - exact three_records_stamped.
Defined.

(** X22: for a known node one of whose stored records carries no server
    timestamp, every read raises [TypeError], whatever the range and
    [nb_values], and leaves the backend unchanged. *)
Theorem read_datavalues_unstamped_raises s node r start end_ nb_values :
  _datachanges s !! node = Some r →
  Exists (λ d, ServerTimestamp d = None) (deref r s) →
  read_datavalues node start end_ nb_values s = (Raises TypeError, s).
Proof.
  intros Hd Hex. by rewrite read_datavalues_run, Hd, select_unstamped.
Qed.

Lemma read_datavalues_unstamped_raises_witness :
  read_datavalues 1%nat 0 (seconds 10) 0 hourly_unstamped
  = (Raises TypeError, hourly_unstamped).
Proof.
  apply (read_datavalues_unstamped_raises hourly_unstamped 1%nat 0%nat
           0 (seconds 10) 0).
  - reflexivity.
  - change (deref 0%nat hourly_unstamped) with [dv_unstamped 1].
    apply Exists_cons_hd. reflexivity.
Defined.

Lemma filter_ascending (P : DataValue → Prop) `{∀ d, Decision (P d)} l :
  ascending l → ascending (filter P l).
Proof.
  unfold ascending. intros [Hst Hsorted]. split.
  - apply Forall_forall. intros x Hx.
    apply list_elem_of_filter in Hx as [_ Hx].
    rewrite Forall_forall in Hst. by apply Hst.
  - clear Hst. induction Hsorted as [|d l Hsorted IH Hle]; [constructor|].
    rewrite filter_cons. destruct (decide (P d)); [|done].
    constructor; [done|]. apply Forall_forall. intros x Hx.
    apply list_elem_of_filter in Hx as [_ Hx].
    rewrite Forall_forall in Hle. by apply Hle.
Qed.

(** X9: when the stored records of a node all carry a server timestamp and
    are in ascending order of it, a read returns, and the records it
    returns are in ascending order too. *)
Theorem read_datavalues_ascending s node r start end_ nb_values :
  _datachanges s !! node = Some r →
  ascending (deref r s) →
  ∃ l, (read_datavalues node start end_ nb_values s).1 = Returns l ∧
       ascending l.
Proof.
  intros Hd Hasc. rewrite read_datavalues_run, Hd. simpl.
  rewrite select_stamped by apply Hasc.
  eexists. split; [reflexivity|]. by apply filter_ascending.
Qed.

Lemma three_records_ascending : ascending (deref 0%nat three_records).
Proof.
  rewrite three_records_stored.
  apply (three_stamps_ascending _ _ _ (seconds 1) (seconds 2) (seconds 3));
    first [reflexivity | unfold seconds, usec_per_sec; lia].
Qed.

Lemma read_datavalues_ascending_witness :
  ∃ l, (read_datavalues 1%nat (seconds 2) (seconds 3) 1 three_records).1
       = Returns l ∧ ascending l.
Proof.
  apply (read_datavalues_ascending three_records 1%nat 0%nat).
  - reflexivity.
  - exact three_records_ascending.
Defined.

(** A range lying wholly below the timestamps of a list selects nothing. *)
Lemma filter_range_below (a b : datetime) (l : list DataValue) :
  Forall (λ d, ∀ t, ServerTimestamp d = Some t → b < t) l →
  filter (in_range a b) l = [].
Proof.
  induction 1 as [|d l Hd _ IH]; [done|].
  rewrite filter_cons_False; [done|].
  intros (t & Ht & Hin). specialize (Hd t Ht). lia.
Qed.

Lemma filter_windows (a b c : datetime) (l : list DataValue) :
  a ≤ b + 1 → b ≤ c → ascending l →
  filter (in_range a c) l
  = filter (in_range a b) l ++ filter (in_range (b + 1) c) l.
Proof.
  intros Hab Hbc [Hst Hsorted]. revert Hst.
  induction Hsorted as [|d l Hsorted IH Hle]; intros Hst; [done|].
  apply Forall_cons in Hst as [[t Ht] Hst]. specialize (IH Hst).
  assert (Hbelow : b < t → filter (in_range a b) l = []).
  { intros Hbt. apply filter_range_below.
    apply Forall_forall. intros x Hx tx Htx.
    rewrite Forall_forall in Hle. specialize (Hle x Hx t tx Ht Htx). lia. }
  rewrite !filter_cons.
  destruct (decide (in_range a c d)) as [Hac|Hac];
    destruct (decide (in_range a b d)) as [H1|H1];
    destruct (decide (in_range (b + 1) c d)) as [H2|H2];
    unfold in_range in Hac, H1, H2; rewrite Ht in Hac, H1, H2.
  - destruct H1 as (? & [= <-] & ?), H2 as (? & [= <-] & ?). lia.
  - simpl. by rewrite IH.
  - destruct H2 as (? & [= <-] & ?).
    rewrite IH, Hbelow by lia. done.
  - destruct Hac as (? & [= <-] & ?).
    destruct H1. exists t. split; [done|].
    destruct (decide (t ≤ b)); [lia|].
    destruct H2. exists t. split; [done|]. lia.
  - destruct H1 as (? & [= <-] & ?). destruct Hac. exists t. split; [done|]. lia.
  - destruct H1 as (? & [= <-] & ?). destruct Hac. exists t. split; [done|]. lia.
  - destruct H2 as (? & [= <-] & ?). destruct Hac. exists t. split; [done|]. lia.
  - done.
Qed.

(** X10: for a node whose stored records are in ascending order of server
    timestamp, reading the range from [a] to [c] gives the records of the
    range from [a] to [b] followed by those of the range from one
    microsecond after [b] to [c]: adjacent windows neither lose nor repeat a
    record. *)
Theorem read_datavalues_adjacent_windows s node r a b c nb :
  _datachanges s !! node = Some r →
  ascending (deref r s) →
  a ≤ b + 1 → b ≤ c →
  ∃ l1 l2,
    (read_datavalues node a b nb s).1 = Returns l1 ∧
    (read_datavalues node (b + 1) c nb s).1 = Returns l2 ∧
    (read_datavalues node a c nb s).1 = Returns (l1 ++ l2).
Proof.
  intros Hd Hasc Hab Hbc. rewrite !read_datavalues_run, Hd. simpl.
  rewrite !select_stamped by apply Hasc.
  eexists _, _. split_and!; [reflexivity..|].
  f_equal. by apply filter_windows.
Qed.

Lemma read_datavalues_adjacent_windows_witness :
  ∃ l1 l2,
    (read_datavalues 1%nat (seconds 1) (seconds 2) 0 three_records).1
    = Returns l1 ∧
    (read_datavalues 1%nat (seconds 2 + 1) (seconds 3) 0 three_records).1
    = Returns l2 ∧
    (read_datavalues 1%nat (seconds 1) (seconds 3) 0 three_records).1
    = Returns (l1 ++ l2).
Proof.
  apply (read_datavalues_adjacent_windows three_records 1%nat 0%nat).
  - reflexivity.
  - exact three_records_ascending.
  - unfold seconds, usec_per_sec. lia.
  - unfold seconds, usec_per_sec. lia.
Defined.

End HistoryDict_reads.

(** ** More on the codec *)

Lemma byte_of_Z_of_byte (z : Z) (b : Byte.byte) :
  z `mod` 256 = Z_of_byte b → byte_of_Z z = b.
Proof.
  intros Hz. unfold byte_of_Z.
  change 255 with (Z.ones 8). rewrite Z.land_ones by lia.
  change (2 ^ 8) with 256. rewrite Hz. unfold Z_of_byte.
  rewrite N2Z.id, Byte.of_to_N. reflexivity.
Qed.

Lemma Z_of_byte_range (b : Byte.byte) : 0 ≤ Z_of_byte b < 256.
Proof.
  unfold Z_of_byte. pose proof (Byte.to_N_bounded b). lia.
Qed.

(** The integer held by four bytes, and the bytes of that integer. *)
Lemma struct_pack_unpack (b0 b1 b2 b3 : Byte.byte) :
  ∃ v, struct_unpack_L [b0; b1; b2; b3] = Returns v ∧
       v = Z_of_byte b0 * 2 ^ 24 + Z_of_byte b1 * 2 ^ 16
           + Z_of_byte b2 * 2 ^ 8 + Z_of_byte b3 ∧
       0 ≤ v < 2 ^ 32 ∧
       pack_be32 v = [b0; b1; b2; b3].
Proof.
  pose proof (Z_of_byte_range b0) as H0. pose proof (Z_of_byte_range b1) as H1.
  pose proof (Z_of_byte_range b2) as H2. pose proof (Z_of_byte_range b3) as H3.
  eexists. split; [reflexivity|].
  rewrite (lor_shiftl_low _ (Z_of_byte b3) 8) by lia.
  rewrite (lor_shiftl_low _ _ 16) by lia.
  rewrite (lor_shiftl_low _ _ 24) by lia.
  change (2 ^ 8) with 256 in *. change (2 ^ 16) with 65536 in *.
  change (2 ^ 24) with 16777216 in *. change (2 ^ 32) with 4294967296 in *.
  split; [lia|]. split; [lia|].
  unfold pack_be32. rewrite !Z.shiftr_div_pow2 by lia.
  change (2 ^ 8) with 256 in *. change (2 ^ 16) with 65536 in *.
  change (2 ^ 24) with 16777216 in *.
  repeat f_equal; apply byte_of_Z_of_byte;
    Z.div_mod_to_equations; lia.
Qed.

(** X11: in a local time zone with a fixed offset from UTC, every
    four-byte token decodes, to the timestamp that lies as many whole
    seconds after the epoch as the value of the bytes read most significant
    first, hence below 2^32 seconds; and no other token, of whatever length,
    decodes to the same outcome. *)
Theorem token_decoding_injective (b0 b1 b2 b3 : Byte.byte)
  (token' : list Byte.byte) :
  bytes_to_datetime [b0; b1; b2; b3]
  = Returns (fromtimestamp (Z_of_byte b0 * 2 ^ 24 + Z_of_byte b1 * 2 ^ 16
                            + Z_of_byte b2 * 2 ^ 8 + Z_of_byte b3)) ∧
  0 ≤ Z_of_byte b0 * 2 ^ 24 + Z_of_byte b1 * 2 ^ 16
      + Z_of_byte b2 * 2 ^ 8 + Z_of_byte b3 < 2 ^ 32 ∧
  (bytes_to_datetime token' = bytes_to_datetime [b0; b1; b2; b3] →
   token' = [b0; b1; b2; b3]).
Proof.
  destruct (struct_pack_unpack b0 b1 b2 b3) as (v & Hv & Hval & Hrange & Hpack).
  assert (Hdec : bytes_to_datetime [b0; b1; b2; b3]
                 = Returns (fromtimestamp v)).
  { unfold bytes_to_datetime. by rewrite Hv. }
  rewrite Hdec, <- Hval. split; [done|]. split; [done|].
  intros Heq.
  destruct token' as [|c0 [|c1 [|c2 [|c3 [|c4 token']]]]];
    try (rewrite bytes_to_datetime_wrong_length in Heq
           by (simpl; lia); discriminate).
  destruct (struct_pack_unpack c0 c1 c2 c3) as (w & Hw & _ & _ & Hpackw).
  unfold bytes_to_datetime in Heq. rewrite Hw in Heq. simpl in Heq.
  injection Heq as Heq. unfold fromtimestamp, usec_per_sec in Heq.
  assert (w = v) as -> by lia. congruence.
Qed.

(** ** More on the manager *)

Section Manager_more.
Context {S : Type} `{HistoryStorageInterface S}.

(** X13: historizing a node that has a handler raises [UaError] and
    changes nothing: neither the handler, nor the subscription, nor the
    storage (the backend is not asked to register the node again). *)
Theorem historize_twice_raises node period count sub (hm : HistoryManager S) :
  _sub hm = Some sub →
  is_Some (_handlers hm !! node) →
  historize node period count hm = (Raises UaError, hm).
Proof.
  intros Hs Hh. unfold historize. unfold_M. rewrite Hs.
  rewrite bool_decide_eq_true_2 by done. reflexivity.
Qed.

(** X14: dehistorizing is not repeatable: after a node was dehistorized, a
    second call for it raises [KeyError] and leaves the manager as the first
    call left it. *)
Theorem dehistorize_twice_raises node sub h (hm : HistoryManager S) :
  _sub hm = Some sub →
  _handlers hm !! node = Some h →
  (dehistorize node;; dehistorize node) hm
  = (Raises KeyError, (dehistorize node hm).2).
Proof.
  intros Hs Hh. unfold mbind at 1. unfold M_bind.
  rewrite (dehistorize_historized node sub h hm Hs Hh). simpl.
  unfold dehistorize. unfold_M. simpl.
  unfold HistoryDict.getitem. rewrite lookup_delete_eq. reflexivity.
Qed.

Lemma read_history_loop_other py nodes : ∀ results (hm : HistoryManager S),
  read_history_loop py OtherDetails nodes results hm
  = (Returns (results ++
              replicate (length nodes)
                {| StatusCode := BadNotImplemented;
                   ResContinuationPoint := VBytes [];
                   HistoryData_ := NoHistoryData |}), hm).
Proof.
  induction nodes as [|rv nodes IH]; intros results hm; simpl.
  - by rewrite app_nil_r.
  - unfold mbind, M_bind. simpl. unfold mret, M_ret. simpl.
    rewrite IH. by rewrite <- app_assoc.
Qed.

(** X15: a read request whose details are of a kind other than raw or
    modified read and event read returns one result per node, each with
    status [BadNotImplemented], an empty continuation point and no data;
    the backend is not consulted and the manager does not change. *)
Theorem read_history_unsupported_details py nodes (hm : HistoryManager S) :
  read_history py (mkHistoryReadParameters OtherDetails nodes) hm
  = (Returns (replicate (length nodes)
                {| StatusCode := BadNotImplemented;
                   ResContinuationPoint := VBytes [];
                   HistoryData_ := NoHistoryData |}), hm).
Proof.
  unfold read_history. simpl. by rewrite read_history_loop_other.
Qed.

End Manager_more.

Lemma manager_with_one_record_sub :
  _sub manager_with_one_record
  = Some (Subscription.subscribe_data_change 1%nat Subscription.create).2.
Proof. reflexivity. Qed.

Lemma historize_twice_raises_witness :
  historize 1%nat (Some (seconds 60)) 5 manager_with_one_record
  = (Raises UaError, manager_with_one_record).
Proof.
  apply (historize_twice_raises 1%nat (Some (seconds 60)) 5
           (Subscription.subscribe_data_change 1%nat Subscription.create).2
           manager_with_one_record).
  - reflexivity.
  - vm_compute. eauto.
Defined.

Lemma dehistorize_twice_raises_witness :
  (dehistorize 1%nat;; dehistorize 1%nat) manager_with_one_record
  = (Raises KeyError, (dehistorize 1%nat manager_with_one_record).2).
Proof.
  apply (dehistorize_twice_raises 1%nat
           (Subscription.subscribe_data_change 1%nat Subscription.create).2
           1%nat manager_with_one_record).
  - reflexivity.
  - reflexivity.
Defined.

(** ** The manager on its default backend *)

(** What [historize] does to a manager on the default backend for a node
    without handler. *)
Lemma historize_run node period count (hm : HistoryManager HistoryDict) :
  _handlers hm !! node = None →
  historize node period count hm
  = (Returns tt,
     {| storage := (HistoryDict.new_node node period count (storage hm)).2;
        _sub := Some (Subscription.subscribe_data_change node
                        (default Subscription.create (_sub hm))).2;
        _handlers := <[node := next_handle
                                 (default Subscription.create (_sub hm))]>
                       (_handlers hm) |}).
Proof.
  intros Hn. unfold historize. unfold_M.
  destruct (_sub hm) as [sub|]; simpl; rewrite Hn; reflexivity.
Qed.

(** X17: on the default backend, historizing a node without handler
    returns; the node then has a handler, the subscription exists, the node
    has the given period and count, and its history is empty, even if
    records of an earlier historization were still stored. The handlers of
    the other nodes are as before. *)
Theorem historize_registers_node node period count start end_ nb_values
  (hm : HistoryManager HistoryDict) :
  _handlers hm !! node = None →
  ∃ hm',
    historize node period count hm = (Returns tt, hm') ∧
    is_Some (_handlers hm' !! node) ∧
    (∀ node', node' ≠ node → _handlers hm' !! node' = _handlers hm !! node') ∧
    is_Some (_sub hm') ∧
    _datachanges_period (storage hm') !! node = Some (period, count) ∧
    (HistoryDict.read_datavalues node start end_ nb_values (storage hm')).1
    = Returns [].
Proof.
  intros Hn. rewrite historize_run by done. eexists. split; [reflexivity|].
  cbn [storage _sub _handlers]. split_and!.
  - rewrite lookup_insert_eq. eauto.
  - intros node' Hne. by rewrite lookup_insert_ne.
  - eauto.
  - rewrite new_node_run. simpl. by rewrite lookup_insert_eq.
  - rewrite read_datavalues_run, new_node_run. simpl.
    rewrite lookup_insert_eq. unfold HistoryDict.deref. simpl.
    by rewrite lookup_insert_eq.
Qed.

Lemma historize_registers_node_witness :
  ∃ hm',
    historize 2%nat None 3 manager_with_one_record = (Returns tt, hm') ∧
    is_Some (_handlers hm' !! 2%nat) ∧
    (∀ node', node' ≠ 2%nat →
              _handlers hm' !! node' = _handlers manager_with_one_record !! node') ∧
    is_Some (_sub hm') ∧
    _datachanges_period (storage hm') !! 2%nat = Some (None, 3) ∧
    (HistoryDict.read_datavalues 2%nat 0 (seconds 10) 0 (storage hm')).1
    = Returns [].
Proof.
  apply (historize_registers_node 2%nat None 3 0 (seconds 10) 0
           manager_with_one_record).
  reflexivity.
Defined.

(** X18: on the default backend, historizing a node without handler and
    dehistorizing it again returns and restores the handlers; the storage
    is left as [new_node] left it, with the node still registered. *)
Theorem historize_dehistorize node period count
  (hm : HistoryManager HistoryDict) :
  _handlers hm !! node = None →
  ∃ hm',
    (historize node period count;; dehistorize node) hm = (Returns tt, hm') ∧
    _handlers hm' = _handlers hm ∧
    storage hm' = (HistoryDict.new_node node period count (storage hm)).2 ∧
    is_Some (_datachanges (storage hm') !! node).
Proof.
  intros Hn. unfold mbind at 1. unfold M_bind.
  rewrite historize_run by done.
  erewrite dehistorize_historized; [|reflexivity|simpl; apply lookup_insert_eq].
  eexists. split; [reflexivity|]. cbn [storage _sub _handlers]. split_and!.
  - by apply delete_insert_id.
  - done.
  - rewrite new_node_run. simpl. rewrite lookup_insert_eq. eauto.
Qed.

Lemma historize_dehistorize_witness :
  ∃ hm',
    (historize 2%nat None 3;; dehistorize 2%nat) manager_with_one_record
    = (Returns tt, hm') ∧
    _handlers hm' = _handlers manager_with_one_record ∧
    storage hm'
    = (HistoryDict.new_node 2%nat None 3 (storage manager_with_one_record)).2 ∧
    is_Some (_datachanges (storage hm') !! 2%nat).
Proof.
  apply (historize_dehistorize 2%nat None 3 manager_with_one_record).
  reflexivity.
Defined.

(** X20: on the default backend an event read raises
    [NotImplementedError] at its first node, so that the whole batch is
    abandoned; the manager does not change. *)
Theorem read_history_event_raises py d rv nodes
  (hm : HistoryManager HistoryDict) :
  read_history py (mkHistoryReadParameters (Event d) (rv :: nodes)) hm
  = (Raises NotImplementedError, hm).
Proof.
  destruct hm as [st sub handlers]. reflexivity.
Qed.


